(** * embeddings: the metric adapter and the transformer training module

    A shallow embedding of
      - [embeddings/metric/hugging_face_metric.py]
      - [embeddings/model/lightning_module/lightning_module.py]
      - [embeddings/model/lightning_module/huggingface_module.py]
    Python objects are records, dictionaries are finite maps keyed by
    strings, an exception is a [Raise] outcome that carries the class of
    the exception, and a method that mutates [self] returns the new [self].
    The first half of the file holds the definitions, the second half the
    lemmas and theorems. *)

From Stdlib Require Import ZArith QArith.QArith QArith.Qround String Ascii List Lia.
From Corelib Require Import SpecFloat.
From stdpp Require Import base gmap strings list fin_maps.

Local Open Scope string_scope.
Local Open Scope Z_scope.
Local Set Warnings "-register-all,-clear-no-such-hyp".

(* ===================================================================== *)
(** * Part I. Definitions                                                 *)
(* ===================================================================== *)

(** ** The fragment of Python the sources rely on *)

Module Py.

(** Values that flow through the [Any]-typed positions of the sources. *)
Inductive value : Type :=
| VNone
| VBool (b : bool)
| VInt (z : Z)
| VFloat (f : spec_float)
| VStr (s : string)
| VList (l : list value)
| VDict (d : gmap string value).

(** An exception: the names of its class and of the classes it inherits
    from (its method resolution order), and its message. *)
Record exn : Type := Exn { exn_mro : list string; exn_msg : string }.

Definition ValueError (msg : string) : exn :=
  Exn ["ValueError"; "Exception"; "BaseException"] msg.
Definition AttributeError (msg : string) : exn :=
  Exn ["AttributeError"; "Exception"; "BaseException"] msg.
Definition TypeError (msg : string) : exn :=
  Exn ["TypeError"; "Exception"; "BaseException"] msg.
Definition AssertionError (msg : string) : exn :=
  Exn ["AssertionError"; "Exception"; "BaseException"] msg.
Definition IndexError (msg : string) : exn :=
  Exn ["IndexError"; "LookupError"; "Exception"; "BaseException"] msg.
Definition KeyError (msg : string) : exn :=
  Exn ["KeyError"; "LookupError"; "Exception"; "BaseException"] msg.
Definition ZeroDivisionError (msg : string) : exn :=
  Exn ["ZeroDivisionError"; "ArithmeticError"; "Exception"; "BaseException"] msg.
Definition OverflowError (msg : string) : exn :=
  Exn ["OverflowError"; "ArithmeticError"; "Exception"; "BaseException"] msg.
Definition RuntimeError (msg : string) : exn :=
  Exn ["RuntimeError"; "Exception"; "BaseException"] msg.

(** The outcome of a call: a value, or an exception that propagates. *)
Inductive result (A : Type) : Type :=
| Return (a : A)
| Raise (e : exn).
Arguments Return {A} a.
Arguments Raise {A} e.

Definition bind {A B : Type} (r : result A) (k : A -> result B) : result B :=
  match r with
  | Return a => k a
  | Raise e => Raise e
  end.

#[global] Instance result_bind : MBind result := fun A B k r => bind r k.
#[global] Instance result_ret : MRet result := @Return.

Definition is_return {A : Type} (r : result A) : bool :=
  match r with Return _ => true | Raise _ => false end.

(** [isinstance(e, cls)]: [cls] is the class of [e] or one of its bases. *)
Definition isinstance (e : exn) (cls : string) : bool :=
  bool_decide (cls ∈ exn_mro e).

(** [except (c1, c2, ...)] handles [e]. *)
Definition handles (classes : list string) (e : exn) : bool :=
  existsb (isinstance e) classes.
Arguments handles : simpl never.

(** [try: body except classes: handler]. *)
Definition try_except {A : Type} (body : result A) (classes : list string)
    (handler : result A) : result A :=
  match body with
  | Return a => Return a
  | Raise e => if handles classes e then handler else Raise e
  end.

(** *** Strings *)

(** [s.startswith(p)]. *)
Definition startswith (s p : string) : bool := String.prefix p s.

(** [s.split(sep)] for a one-character separator: every occurrence splits,
    empty pieces are kept, the result is never empty. *)
Fixpoint split (sep : ascii) (s : string) : list string :=
  match s with
  | EmptyString => [EmptyString]
  | String c rest =>
      if Ascii.eqb c sep then EmptyString :: split sep rest
      else match split sep rest with
           | piece :: pieces => String c piece :: pieces
           | [] => [String c EmptyString]
           end
  end.

(** [l[i]] for a non-negative literal index. *)
Definition getitem {A : Type} (l : list A) (i : nat) : result A :=
  match l !! i with
  | Some x => Return x
  | None => Raise (IndexError "list index out of range")
  end.

(** The whitespace [int] strips: space, tab, line feed, vertical tab,
    form feed, carriage return. *)
Definition is_space (c : ascii) : bool :=
  let n := nat_of_ascii c in
  orb (Nat.eqb n 32) (andb (Nat.leb 9 n) (Nat.leb n 13)).

Definition digit_of (c : ascii) : option Z :=
  let n := nat_of_ascii c in
  if andb (Nat.leb 48 n) (Nat.leb n 57) then Some (Z.of_nat n - 48) else None.

Fixpoint lstrip (s : string) : string :=
  match s with
  | String c rest => if is_space c then lstrip rest else s
  | EmptyString => EmptyString
  end.

(** Digits after the first one, with single underscores allowed between
    two digits; trailing whitespace ends the literal. [acc] is the value
    read so far and [after_us] says that the previous character was an
    underscore. *)
Fixpoint int_digits (s : string) (acc : Z) (after_us : bool) : option Z :=
  match s with
  | EmptyString => if after_us then None else Some acc
  | String c rest =>
      match digit_of c with
      | Some d => int_digits rest (10 * acc + d) false
      | None =>
          if after_us then None
          else if Ascii.eqb c "_" then int_digits rest acc true
          else if is_space c then
                 match lstrip rest with EmptyString => Some acc | _ => None end
          else None
      end
  end.

(** The magnitude of a literal: it starts with a digit. *)
Definition int_magnitude (s : string) : option Z :=
  match s with
  | String c rest =>
      match digit_of c with
      | Some d => int_digits rest d false
      | None => None
      end
  | EmptyString => None
  end.

(** [int(s)] in base ten on a string of ASCII characters (parameter names
    are ASCII): surrounding whitespace is stripped, one sign is allowed. *)
Definition int_of_str (s : string) : result Z :=
  let body := lstrip s in
  let parsed :=
    match body with
    | String "-" rest => Z.opp <$> int_magnitude rest
    | String "+" rest => int_magnitude rest
    | _ => int_magnitude body
    end in
  match parsed with
  | Some z => Return z
  | None => Raise (ValueError "invalid literal for int() with base 10")
  end.

(** *** Numbers *)

(** [sys.maxsize] of a 64-bit interpreter. *)
Definition maxsize : Z := 2 ^ 63 - 1.

(** A Python [float] is an IEEE 754 binary64 number. *)
Definition prec : Z := 53.
Definition emax : Z := 1024.

(** [float(z)]: rounded to the nearest double, ties to even. *)
Definition float_of_int (z : Z) : result spec_float :=
  match binary_normalize prec emax z 0 false with
  | S754_infinity _ => Raise (OverflowError "int too large to convert to float")
  | f => Return f
  end.

(** An [int] as the unrounded binary number [z * 2 ^ 0]. *)
Definition float_raw (z : Z) : spec_float :=
  match z with
  | 0 => S754_zero false
  | Zpos p => S754_finite false p 0
  | Zneg p => S754_finite true p 0
  end.

(** [a / b] on two [int]s: the exact quotient, rounded once to the
    nearest double, ties to even (for operands below [2 ^ 53] in
    magnitude this is the division of the two converted operands). *)
Definition int_truediv (a b : Z) : result spec_float :=
  if b =? 0 then Raise (ZeroDivisionError "division by zero")
  else
    match SFdiv prec emax (float_raw a) (float_raw b) with
    | S754_infinity _ => Raise (OverflowError "integer division result too large for a float")
    | q => Return q
    end.

(** Two doubles are the same number, sign of zero included. *)
Definition float_same (x y : spec_float) : bool :=
  match x, y with
  | S754_zero s, S754_zero t => Bool.eqb s t
  | S754_infinity s, S754_infinity t => Bool.eqb s t
  | S754_nan, S754_nan => true
  | S754_finite s m e, S754_finite t n f => Bool.eqb s t && Pos.eqb m n && (e =? f)
  | _, _ => false
  end.

(** [x * y] on two [float]s. *)
Definition float_mul (x y : spec_float) : spec_float := SFmul prec emax x y.

(** [int(x)] on a [float]: the fraction is dropped (rounding toward zero). *)
Definition int_of_float (x : spec_float) : result Z :=
  match x with
  | S754_zero _ => Return 0
  | S754_finite s m e => Return (cond_Zopp s (Z.shiftl (Zpos m) e))
  | S754_infinity _ => Raise (OverflowError "cannot convert float infinity to integer")
  | S754_nan => Raise (ValueError "cannot convert float NaN to integer")
  end.

(** [v == z] for an [int] literal [z]: numbers compare by value across
    [bool], [int] and [float]; nothing else equals a number. *)
Definition eq_int (v : value) (z : Z) : bool :=
  match v with
  | VBool b => Z.b2z b =? z
  | VInt x => x =? z
  | VFloat (S754_zero _) => z =? 0
  | VFloat (S754_finite s m e) =>
      if 0 <=? e then cond_Zopp s (Z.shiftl (Zpos m) e) =? z
      else cond_Zopp s (Zpos m) =? Z.shiftl z (- e)
  | _ => false
  end.

(** Truth value of an [Optional[int]]: [None] and [0] are false. *)
Definition truthy_opt_int (o : option Z) : bool :=
  match o with
  | Some z => negb (z =? 0)
  | None => false
  end.

(** *** Calls with keyword arguments *)

(** [f(k1=v1, ..., **d1, **d2, ...)]: the keywords written out come first,
    then each unpacked mapping in order; a keyword given twice is a
    [TypeError] raised before [f] is entered. *)
Fixpoint unpack_kwargs (acc : gmap string value) (stars : list (gmap string value))
  : result (gmap string value) :=
  match stars with
  | [] => Return acc
  | d :: rest =>
      if bool_decide (dom acc ∩ dom d = (∅ : gset string))
      then unpack_kwargs (acc ∪ d) rest
      else Raise (TypeError "got multiple values for keyword argument")
  end.

(** *** Methods that mutate an object *)

(** A method run on an object of type [S]: the object as the method leaves
    it, and the outcome. An exception keeps the writes made before it. *)
Definition method (S A : Type) : Type := S -> S * result A.

#[global] Instance method_bind {S : Type} : MBind (method S) :=
  fun A B k m s =>
    match m s with
    | (s', Return a) => k a s'
    | (s', Raise e) => (s', Raise e)
    end.
#[global] Instance method_ret {S : Type} : MRet (method S) :=
  fun A a s => (s, Return a).

Definition get {S : Type} : method S S := fun s => (s, Return s).
Definition modify {S : Type} (f : S -> S) : method S unit := fun s => (f s, Return tt).
Definition lift {S A : Type} (r : result A) : method S A := fun s => (s, r).
Definition raise {S A : Type} (e : exn) : method S A := lift (Raise e).
Definition assert {S : Type} (b : bool) : method S unit :=
  if b then mret tt else raise (AssertionError "").

(** *** More strings *)

(** [sep.join(pieces)]. *)
Fixpoint join (sep : string) (pieces : list string) : string :=
  match pieces with
  | [] => EmptyString
  | [piece] => piece
  | piece :: rest => piece +:+ sep +:+ join sep rest
  end.

(** [sub in s] on two strings: [sub] occurs in [s]. *)
Fixpoint contains (s sub : string) : bool :=
  String.prefix sub s
  || match s with
     | String _ rest => contains rest sub
     | EmptyString => false
     end.

End Py.

Import Py.

(** ** [embeddings/metric/hugging_face_metric.py] *)

Module HuggingFaceMetric.

(** A metric object of the [evaluate] library, through what the adapter
    uses of it: its [name] attribute, its [str()], and its [compute],
    which takes keyword arguments only. *)
Record EvaluateMetric : Type := {
  em_name : string;
  em_str : string;
  em_compute : gmap string value -> result value
}.

(** Modelled from the spec: the base class [embeddings.metric.metric.Metric]
    is not among the sources; its constructor records the metric name, the
    string identity of the adapter, as the field [name]. *)
Record t : Type := {
  name : string;
  metric : EvaluateMetric;
  compute_kwargs : gmap string value
}.

Definition invalid_process_id : exn :=
  ValueError "Metric computation should be run on the main process. Otherwise it would not return results in dict.".

(** What [__init__] builds once the process id has been accepted: the
    name goes to the base class, the metric is loaded by name through
    [load] ([evaluate.load]) or taken as given. *)
Definition constructed (load : string -> gmap string value -> result EvaluateMetric)
    (metric_arg : string + EvaluateMetric)
    (compute_kwargs_arg : option (gmap string value))
    (init_kwargs : gmap string value) : result t :=
  match metric_arg with
  | inl s =>
      m ← load s init_kwargs;
      Return {| name := s; metric := m;
                compute_kwargs := default ∅ compute_kwargs_arg |}
  | inr m =>
      Return {| name := em_str m; metric := m;
                compute_kwargs := default ∅ compute_kwargs_arg |}
  end.

(** [HuggingFaceMetric.__init__(metric, compute_kwargs, **init_kwargs)]. *)
Definition init (load : string -> gmap string value -> result EvaluateMetric)
    (metric_arg : string + EvaluateMetric)
    (compute_kwargs_arg : option (gmap string value))
    (init_kwargs : gmap string value) : result t :=
  if negb (eq_int (default (VInt 0) (init_kwargs !! "process_id")) 0)
  then Raise invalid_process_id
  else constructed load metric_arg compute_kwargs_arg init_kwargs.

(** [-1.0]. *)
Definition minus_one : spec_float := S754_finite true 4503599627370496 (-52).

(** The classes of the [except] clause of [compute]. *)
Definition recovered : list string := ["AttributeError"; "ValueError"].

(** The mapping returned by the [except] clause. *)
Definition sentinel (self : t) : gmap string value :=
  {[ em_name (metric self) := VFloat minus_one ]}.

(** The keywords written out in the call of the wrapped metric. *)
Definition explicit (y_true y_pred : value) : gmap string value :=
  <["predictions" := y_pred]> (<["references" := y_true]> ∅).

(** The binding of the keyword arguments of that call. *)
Definition call_arguments (self : t) (y_true y_pred : value)
    (kwargs : gmap string value) : result (gmap string value) :=
  unpack_kwargs (explicit y_true y_pred) [compute_kwargs self; kwargs].

(** [HuggingFaceMetric.compute(y_true, y_pred, **kwargs)]. Besides the
    outcome, the model returns the calls made to the wrapped metric's
    [compute], each by the keyword arguments it received, in order. *)
Definition compute (self : t) (y_true y_pred : value) (kwargs : gmap string value)
  : result (gmap string value) * list (gmap string value) :=
  let call := call_arguments self y_true y_pred kwargs in
  let body : result (gmap string value) :=
    args ← call;
    result ← em_compute (metric self) args;
    match result with
    | VDict d => Return d
    | _ => Raise (AssertionError "")
    end in
  (try_except body recovered (Return (sentinel self)),
   match call with
   | Return args => [args]
   | Raise _ => []
   end).

(** The items of a dictionary, in the order of their insertion. *)
Definition items_of (d : gmap string value) (items : list (string * value)) : Prop :=
  NoDup items.*1 /\ list_to_map items = d.

(** [HuggingFaceMetric.__str__]. [base] is the string of the base class,
    [format] the conversion of a value in an f-string, [items] what
    [self.compute_kwargs.items()] yields. *)
Definition __str__ (base : string) (format : value -> string)
    (items : list (string * value)) : string :=
  let compute_kwargs_str :=
    join "__" ((fun item : string * value => item.1 +:+ "_" +:+ format item.2) <$> items) in
  if negb (String.eqb compute_kwargs_str EmptyString)
  then base +:+ "__" +:+ compute_kwargs_str
  else base.

End HuggingFaceMetric.

(** ** [embeddings/model/lightning_module/lightning_module.py] *)

Module LightningModule.

(** The [torchmetrics] classes the module instantiates. *)
Inductive metric_class : Type := F1Score | Precision | Recall | Accuracy.

(** A metric as constructed: the class and the keyword arguments
    [task], [num_classes], [average] of the constructor call. *)
Record Metric : Type := {
  cls : metric_class;
  task : string;
  num_classes : Z;
  average : option string
}.

(** [torchmetrics.MetricCollection]: the metrics by name, and the prefix
    a clone was given. *)
Record MetricCollection : Type := {
  prefix : option string;
  metrics_of : gmap string Metric
}.

Definition clone (pre : string) (c : MetricCollection) : MetricCollection :=
  {| prefix := Some pre; metrics_of := metrics_of c |}.

(** The dictionary [LightningModule.get_default_metrics] fills and wraps,
    with [num_labels = self.hparams["num_classes"]], when every
    constructor accepts its arguments; [get_default_metrics_run] below
    is the method with the constructors' checks. *)
Definition get_default_metrics (num_labels : Z) : MetricCollection :=
  let metric_collection : gmap string Metric :=
    foldl (fun (mc : gmap string Metric) '(metric, name) =>
             let mc :=
               if num_labels <=? 2
               then <[name +:+ "_binary" :=
                        {| cls := metric; task := "binary";
                           num_classes := num_labels; average := None |}]> mc
               else mc in
             foldl (fun (mc : gmap string Metric) avg =>
                      <[name +:+ "_" +:+ avg :=
                          {| cls := metric; task := "multiclass";
                             num_classes := num_labels; average := Some avg |}]> mc)
                   mc ["micro"; "macro"])
          ∅ [(F1Score, "f1"); (Precision, "precision"); (Recall, "recall")] in
  let metric_collection :=
    <["acc" := {| cls := Accuracy; task := "multiclass";
                  num_classes := num_labels; average := None |}]> metric_collection in
  let metric_collection :=
    if num_labels <=? 2
    then <["acc_binary" := {| cls := Accuracy; task := "binary";
                              num_classes := num_labels; average := None |}]>
           metric_collection
    else metric_collection in
  {| prefix := None; metrics_of := metric_collection |}.

(** A constructor of [torchmetrics] called with [task], [num_classes]
    and [average]: a multiclass metric checks that [num_classes] is
    larger than 1, a binary one does not read it. The message ends with
    the number it was given, which is left out here. *)
Definition construct (metric : metric_class) (task_name : string) (n : Z)
    (avg : option string) : result Metric :=
  if String.eqb task_name "multiclass" && (n <? 2)
  then Raise (ValueError "Expected argument `num_classes` to be an integer larger than 1")
  else Return {| cls := metric; task := task_name; num_classes := n; average := avg |}.

(** A [for] loop whose body may raise: the first exception ends it. *)
Fixpoint for_each {A S : Type} (body : S -> A -> result S) (l : list A) (s : S)
  : result S :=
  match l with
  | [] => Return s
  | x :: rest => s' ← body s x; for_each body rest s'
  end.

(** [LightningModule.get_default_metrics] as it runs: the constructors
    are called in the order of the source, and the first one that
    rejects its arguments ends the call. *)
Definition get_default_metrics_run (num_labels : Z) : result MetricCollection :=
  metric_collection ←
    for_each (fun (mc : gmap string Metric) '(metric, name) =>
                mc ← (if num_labels <=? 2
                      then m ← construct metric "binary" num_labels None;
                           Return (<[name +:+ "_binary" := m]> mc)
                      else Return mc);
                for_each (fun (mc : gmap string Metric) avg =>
                            m ← construct metric "multiclass" num_labels (Some avg);
                            Return (<[name +:+ "_" +:+ avg := m]> mc))
                         ["micro"; "macro"] mc)
             [(F1Score, "f1"); (Precision, "precision"); (Recall, "recall")] ∅;
  acc ← construct Accuracy "multiclass" num_labels None;
  let metric_collection := <["acc" := acc]> metric_collection in
  metric_collection ←
    (if num_labels <=? 2
     then m ← construct Accuracy "binary" num_labels None;
          Return (<["acc_binary" := m]> metric_collection)
     else Return metric_collection);
  Return {| prefix := None; metrics_of := metric_collection |}.

(** The collections the default metrics are compared with. The variants
    built whatever the number of classes: the micro- and macro-averaged
    multiclass F1, precision and recall, and the multiclass accuracy. *)
Definition multiclass_variants (n : Z) : list (string * Metric) :=
  [("f1_micro", {| cls := F1Score; task := "multiclass"; num_classes := n; average := Some "micro" |});
   ("f1_macro", {| cls := F1Score; task := "multiclass"; num_classes := n; average := Some "macro" |});
   ("precision_micro", {| cls := Precision; task := "multiclass"; num_classes := n; average := Some "micro" |});
   ("precision_macro", {| cls := Precision; task := "multiclass"; num_classes := n; average := Some "macro" |});
   ("recall_micro", {| cls := Recall; task := "multiclass"; num_classes := n; average := Some "micro" |});
   ("recall_macro", {| cls := Recall; task := "multiclass"; num_classes := n; average := Some "macro" |});
   ("acc", {| cls := Accuracy; task := "multiclass"; num_classes := n; average := None |})].

(** The binary variants of F1, precision, recall and accuracy. *)
Definition binary_variants (n : Z) : list (string * Metric) :=
  [("f1_binary", {| cls := F1Score; task := "binary"; num_classes := n; average := None |});
   ("precision_binary", {| cls := Precision; task := "binary"; num_classes := n; average := None |});
   ("recall_binary", {| cls := Recall; task := "binary"; num_classes := n; average := None |});
   ("acc_binary", {| cls := Accuracy; task := "binary"; num_classes := n; average := None |})].

(** *** Optimizers and schedulers *)

(** The name fragments of the parameters that get no weight decay. *)
Definition no_decay : list string := ["bias"; "LayerNorm.weight"].

(** [any(nd in n for nd in no_decay)]. *)
Definition any_no_decay (n : string) : bool :=
  existsb (fun nd => contains n nd) no_decay.

(** One dictionary of [optimizer_grouped_parameters]. *)
Record ParamGroup (P : Type) : Type := {
  params : list P;
  weight_decay : value
}.
Arguments params {P} _.
Arguments weight_decay {P} _.

(** [optimizer_grouped_parameters] of [configure_optimizers], over what
    [self.named_parameters()] yields. *)
Definition optimizer_grouped_parameters {P : Type}
    (named_parameters : list (string * P)) (hp_weight_decay : value)
  : list (ParamGroup P) :=
  [ {| params := snd <$> List.filter (fun np => negb (any_no_decay np.1)) named_parameters;
       weight_decay := hp_weight_decay |};
    {| params := snd <$> List.filter (fun np => any_no_decay np.1) named_parameters;
       weight_decay := VFloat (S754_zero false) |} ].

(** A class of [torch.optim], by the parameter names of its signature. *)
Record OptimizerClass : Type := {
  signature : list string
}.

(** An optimizer as constructed. *)
Record Optimizer (P : Type) : Type := {
  opt_class : string;
  opt_groups : list (ParamGroup P);
  opt_lr : value;
  opt_eps : value
}.
Arguments opt_class {P} _.
Arguments opt_groups {P} _.
Arguments opt_lr {P} _.
Arguments opt_eps {P} _.

(** The scheduler [get_linear_schedule_with_warmup] is asked for. *)
Record Scheduler (P : Type) : Type := {
  sched_optimizer : Optimizer P;
  num_warmup_steps : value;
  num_training_steps : Z
}.
Arguments sched_optimizer {P} _.
Arguments num_warmup_steps {P} _.
Arguments num_training_steps {P} _.

(** One dictionary of the list [_get_schedulers] returns. *)
Record SchedulerConfig (P : Type) : Type := {
  scheduler : Scheduler P;
  interval : string;
  frequency : Z
}.
Arguments scheduler {P} _.
Arguments interval {P} _.
Arguments frequency {P} _.

(** The hyperparameters [configure_optimizers] reads, besides
    [use_scheduler]. *)
Record OptimHParams : Type := {
  hp_optimizer : string;
  hp_learning_rate : value;
  hp_adam_epsilon : value;
  hp_warmup_steps : value;
  hp_weight_decay : value
}.

(** The exception of the trainer when there is no checkpoint to load. *)
Definition MisconfigurationException (msg : string) : exn :=
  Exn ["MisconfigurationException"; "Exception"; "BaseException"] msg.

End LightningModule.

(** ** [embeddings/model/lightning_module/huggingface_module.py] *)

Module HuggingFaceLightningModule.
Import LightningModule.

(** A parameter of the base model as [named_parameters()] yields it. *)
Record NamedParameter : Type := {
  name : string;
  requires_grad : bool
}.

(** [self.model]: [config.num_hidden_layers] and the named parameters of
    [base_model], in traversal order. *)
Record Model : Type := {
  num_hidden_layers : Z;
  base_model : list NamedParameter
}.

(** [trainer.datamodule]: its [target_names] and the length of the
    dataset behind [train_dataloader()]. *)
Record DataModule : Type := {
  dm_target_names : value;
  dataset_len : nat
}.

Record Trainer : Type := {
  datamodule : option DataModule;
  max_epochs : option Z;
  num_devices : Z;
  accumulate_grad_batches : Z
}.

(** The hyperparameters the methods below read. *)
Record HParams : Type := {
  hp_num_classes : Z;
  hp_use_scheduler : bool;
  hp_train_batch_size : Z
}.

(** The attributes of the module. [total_steps] is [None] until [setup]
    assigns it. *)
Record t : Type := {
  hparams : HParams;
  trainer : option Trainer;
  model : Model;
  metrics : option MetricCollection;
  train_metrics : option MetricCollection;
  val_metrics : option MetricCollection;
  test_metrics : option MetricCollection;
  target_names : value;
  total_steps : option Z
}.

Definition set_target_names (v : value) (self : t) : t :=
  {| hparams := hparams self; trainer := trainer self; model := model self;
     metrics := metrics self; train_metrics := train_metrics self;
     val_metrics := val_metrics self; test_metrics := test_metrics self;
     target_names := v; total_steps := total_steps self |}.

Definition set_total_steps (z : Z) (self : t) : t :=
  {| hparams := hparams self; trainer := trainer self; model := model self;
     metrics := metrics self; train_metrics := train_metrics self;
     val_metrics := val_metrics self; test_metrics := test_metrics self;
     target_names := target_names self; total_steps := Some z |}.

Definition set_model (m : Model) (self : t) : t :=
  {| hparams := hparams self; trainer := trainer self; model := m;
     metrics := metrics self; train_metrics := train_metrics self;
     val_metrics := val_metrics self; test_metrics := test_metrics self;
     target_names := target_names self; total_steps := total_steps self |}.

(** [LightningModule._init_metrics]. The default collection is the
    dictionary [get_default_metrics] fills; the checks of the
    constructors are those of [get_default_metrics_run]. *)
Definition _init_metrics (self : t) : t :=
  let m := match metrics self with
           | None => get_default_metrics (hp_num_classes (hparams self))
           | Some m => m
           end in
  {| hparams := hparams self; trainer := trainer self; model := model self;
     metrics := Some m;
     train_metrics := Some (clone "train/" m);
     val_metrics := Some (clone "val/" m);
     test_metrics := Some (clone "test/" m);
     target_names := target_names self; total_steps := total_steps self |}.

(** [stage in ("fit", None)]. *)
Definition fit_or_none (stage : option string) : bool :=
  match stage with
  | Some s => String.eqb s "fit"
  | None => true
  end.

(** The value assigned to [self.total_steps]:
    [int((len(train_loader.dataset) / ab_size) * float(max_epochs))]. *)
Definition compute_total_steps (dataset_size train_batch_size n_devices
    accumulate max_ep : Z) : result Z :=
  let tb_size := train_batch_size * Z.max 1 n_devices in
  let ab_size := tb_size * accumulate in
  q ← int_truediv dataset_size ab_size;
  e ← float_of_int max_ep;
  int_of_float (float_mul q e).

(** The property [self.trainer] of a module of [pytorch_lightning]: the
    trainer the module is attached to; reading it on a module that is
    attached to none raises [RuntimeError]. The message starts with the
    name of the class of the module, which is left out here. *)
Definition not_attached : exn := RuntimeError "is not attached to a `Trainer`.".

Definition self_trainer (self : t) : result Trainer :=
  match trainer self with
  | Some tr => Return tr
  | None => Raise not_attached
  end.

(** [HuggingFaceLightningModule.setup(stage)]. The [assert] reads the
    property [self.trainer], which raises on a module without trainer;
    once the property has answered, the assertion holds. *)
Definition setup (stage : option string) : method t unit :=
  if fit_or_none stage then
    self ← get;
    tr ← lift (self_trainer self);
    _ ← assert (bool_decide (is_Some (trainer self)));
    match datamodule tr with
    | None => raise (AttributeError "'NoneType' object has no attribute 'target_names'")
    | Some dm =>
        _ ← modify (set_target_names (dm_target_names dm));
        _ ← (if hp_use_scheduler (hparams self) then
               if negb (truthy_opt_int (max_epochs tr))
               then raise (ValueError "Unable to retrieve max_epochs from trainer.")
               else
                 steps ← lift (compute_total_steps
                                  (Z.of_nat (dataset_len dm))
                                  (hp_train_batch_size (hparams self))
                                  (num_devices tr)
                                  (accumulate_grad_batches tr)
                                  (default 0 (max_epochs tr)));
                 modify (set_total_steps steps)
             else mret tt);
        modify _init_metrics
    end
  else mret tt.

(** The layer a parameter name is assigned in [freeze_transformer]. *)
Definition unrecognized : exn :=
  ValueError "Parameter name not recognized when freezing transformer".

Definition layer_of_name (name : string) : result Z :=
  if startswith name "embeddings" then Return 0
  else if startswith name "encoder" then
    segment ← getitem (split "." name) 2;
    int_of_str segment
  else if startswith name "pooler" then Return maxsize
  else Raise unrecognized.

Definition freeze (p : NamedParameter) : NamedParameter :=
  {| name := name p; requires_grad := false |}.

(** The loop of the [else] branch of [freeze_transformer], over the
    parameters still to visit; [threshold] is
    [no_layers - finetune_last_n_layers]. *)
Fixpoint freeze_loop (threshold : Z) (params : list NamedParameter)
  : list NamedParameter * result unit :=
  match params with
  | [] => ([], Return tt)
  | p :: rest =>
      match layer_of_name (name p) with
      | Raise e => (p :: rest, Raise e)
      | Return layer =>
          if threshold <=? layer then (p :: rest, Return tt)
          else
            let '(rest', r) := freeze_loop threshold rest in
            (freeze p :: rest', r)
      end
  end.

(** [HuggingFaceLightningModule.freeze_transformer(finetune_last_n_layers)],
    on [self.model]. *)
Definition freeze_transformer (finetune_last_n_layers : Z) : method Model unit :=
  fun m =>
    if finetune_last_n_layers =? 0 then
      ({| num_hidden_layers := num_hidden_layers m;
          base_model := freeze <$> base_model m |}, Return tt)
    else
      let no_layers := num_hidden_layers m in
      let '(params, r) := freeze_loop (no_layers - finetune_last_n_layers) (base_model m) in
      ({| num_hidden_layers := num_hidden_layers m; base_model := params |}, r).

(** [collections.ChainMap] built from [maps]: the list of its maps, a single empty
    one when none is given. *)
Definition ChainMap (maps : list (gmap string value)) : list (gmap string value) :=
  match maps with
  | [] => [∅]
  | _ => maps
  end.

(** [ChainMap.__getitem__]: the maps are searched in order and the first
    one that has the key answers. *)
Fixpoint ChainMap_getitem (maps : list (gmap string value)) (key : string) : result value :=
  match maps with
  | [] => Raise (KeyError key)
  | m :: rest =>
      match m !! key with
      | Some v => Return v
      | None => ChainMap_getitem rest key
      end
  end.

(** [ChainMap.__iter__]: the keys of all the maps. *)
Definition ChainMap_keys (maps : list (gmap string value)) : gset string :=
  foldr (fun m ks => dom m ∪ ks) ∅ maps.

(** [dict(mapping)]: one entry per key of the mapping, holding
    [mapping[key]]. *)
Definition dict (maps : list (gmap string value)) : gmap string value :=
  foldr (fun key d =>
           match ChainMap_getitem maps key with
           | Return v => <[key := v]> d
           | Raise _ => d
           end)
        ∅ (elements (ChainMap_keys maps)).

(** [HuggingFaceLightningModule.forward] on positional [args] and keyword [kwargs]; [call_model]
    is the call of [self.model] on the unpacked [inputs]. Positional arguments are mappings. *)
Definition forward (call_model : gmap string value -> result value)
    (args : list (gmap string value)) (kwargs : gmap string value) : result value :=
  let has_args := negb (bool_decide (args = [])) in
  let has_kwargs := negb (bool_decide (kwargs = ∅)) in
  if negb (negb (has_args && has_kwargs) && (has_args || has_kwargs))
  then Raise (AssertionError "")
  else
    let inputs := if has_kwargs then kwargs else dict (ChainMap args) in
    call_model inputs.

(** [on_save_checkpoint(checkpoint)]: writes into the checkpoint. *)
Definition on_save_checkpoint (self : t) : method (gmap string value) unit :=
  tr ← lift (self_trainer self);
  _ ← assert (bool_decide (is_Some (trainer self)));
  match datamodule tr with
  | None => raise (AttributeError "'NoneType' object has no attribute 'target_names'")
  | Some dm => modify (<["target_names" := dm_target_names dm]>)
  end.

(** [on_load_checkpoint(checkpoint)]: writes into the module. *)
Definition on_load_checkpoint (checkpoint : gmap string value) : method t unit :=
  match checkpoint !! "target_names" with
  | Some v => modify (set_target_names v)
  | None => raise (KeyError "target_names")
  end.

(** *** Methods of the base class [LightningModule] *)

(** [LightningModule._get_schedulers(optimizer)]. *)
Definition _get_schedulers {P : Type} (hp : OptimHParams) (optimizer : Optimizer P)
    (self : t) : result (list (SchedulerConfig P)) :=
  match total_steps self with
  | None => Raise (AttributeError "object has no attribute 'total_steps'")
  | Some steps =>
      let scheduler :=
        {| sched_optimizer := optimizer;
           num_warmup_steps := hp_warmup_steps hp;
           num_training_steps := steps |} in
      Return [ {| scheduler := scheduler; interval := "step"; frequency := 1 |} ]
  end.

(** [LightningModule.configure_optimizers]. [torch_optim] holds the
    classes of [torch.optim] by name, [named_parameters] is what
    [self.named_parameters()] yields. *)
Definition configure_optimizers {P : Type} (torch_optim : gmap string OptimizerClass)
    (hp : OptimHParams) (named_parameters : list (string * P)) (self : t)
  : result (list (Optimizer P) * list (SchedulerConfig P)) :=
  let groups := optimizer_grouped_parameters named_parameters (hp_weight_decay hp) in
  match torch_optim !! hp_optimizer hp with
  | None => Raise (AttributeError "module 'torch.optim' has no attribute")
  | Some optimizer_cls =>
      if negb (bool_decide ("lr" ∈ signature optimizer_cls))
      then Raise (AssertionError "")
      else if negb (bool_decide ("eps" ∈ signature optimizer_cls))
      then Raise (AssertionError "")
      else
        let optimizer :=
          {| opt_class := hp_optimizer hp; opt_groups := groups;
             opt_lr := hp_learning_rate hp; opt_eps := hp_adam_epsilon hp |} in
        lr_schedulers ← (if hp_use_scheduler (hparams self)
                         then _get_schedulers hp optimizer self
                         else Return []);
        Return ([optimizer], lr_schedulers)
  end.

(** [LightningModule._predict_with_trainer(dataloader)]. [predict] is
    [self.trainer.predict] on this model and data loader, by the
    [ckpt_path] it is given ([None] when the argument is left out).
    Besides the outcome, the model returns the [ckpt_path] of each call
    made, in order. *)
Definition _predict_with_trainer {A : Type} (predict : option string -> result A)
    (self : t) : result A * list (option string) :=
  match self_trainer self with
  | Raise e => (Raise e, [])
  | Return _ =>
      match predict (Some "last") with
      | Return output => (Return output, [Some "last"])
      | Raise e =>
          if handles ["MisconfigurationException"] e
          then (predict None, [Some "last"; None])
          else (Raise e, [Some "last"])
      end
  end.

(** *** Initialization of the model *)

(** [self.freeze_transformer(n)] as a step of a method of the module. *)
Definition on_model (step : method Model unit) : method t unit :=
  fun self =>
    let '(m, r) := step (model self) in
    (set_model m self, r).

(** The module together with its attribute [config], which only
    [_init_model] writes; [C] is the type of the configurations. *)
Record Configured (C : Type) : Type := {
  config : option C;
  module : t
}.
Arguments config {C} _.
Arguments module {C} _.

Definition set_config {C : Type} (c : C) (self : Configured C) : Configured C :=
  {| config := Some c; module := module self |}.

(** A method of the module as a method of the module with its [config]. *)
Definition on_module {C : Type} (step : method t unit) : method (Configured C) unit :=
  fun self =>
    let '(s, r) := step (module self) in
    ({| config := config self; module := s |}, r).

(** [HuggingFaceLightningModule._init_model]. [load_config] is the
    outcome of [AutoConfig.from_pretrained], [load_model] that of
    [downstream_model_type.from_pretrained] by the configuration it is
    given, [compile] what [torch.compile] does with the model when
    [model_compile_kwargs] is a dictionary. *)
Definition _init_model {C : Type} (load_config : result C)
    (load_model : C -> result Model) (compile : option (Model -> Model))
    (finetune_last_n_layers : Z) : method (Configured C) unit :=
  cfg ← lift load_config;
  _ ← modify (set_config cfg);
  loaded ← lift (load_model cfg);
  _ ← on_module (modify (set_model loaded));
  _ ← match compile with
      | Some f => on_module (modify (fun self => set_model (f (model self)) self))
      | None => mret tt
      end;
  if -1 <? finetune_last_n_layers
  then on_module (on_model (freeze_transformer finetune_last_n_layers))
  else mret tt.

(** *** Vocabulary of the statements *)

(** The name starts with one of the prefixes [freeze_transformer] knows. *)
Definition recognized (name : string) : bool :=
  startswith name "embeddings" || startswith name "encoder" || startswith name "pooler".

(** The parameter is assigned a layer, and one below [threshold]. *)
Definition below (threshold : Z) (p : NamedParameter) : bool :=
  match layer_of_name (name p) with
  | Return layer => layer <? threshold
  | Raise _ => false
  end.

(** The formula the specification gives for [total_steps], read in exact
    arithmetic:
    floor((datasetSize / (trainBatchSize * max(1, deviceCount) * gradAccumSteps)) * maxEpochs). *)
Definition total_steps_spec (dataset_size train_batch_size n_devices
    accumulate max_ep : Z) : Z :=
  Qfloor ((inject_Z dataset_size
           / inject_Z (train_batch_size * Z.max 1 n_devices * accumulate))
          * inject_Z max_ep)%Q.

(** The decimal digits [ds] as a string, and the number they denote. *)
Definition digit_char (d : nat) : ascii := ascii_of_nat (48 + d).

Fixpoint digits_string (ds : list nat) : string :=
  match ds with
  | [] => EmptyString
  | d :: rest => String (digit_char d) (digits_string rest)
  end.

Definition digits_value (ds : list nat) : Z :=
  foldl (fun acc d => 10 * acc + Z.of_nat d) 0 ds.

(** The string has no dot: it is one segment of a dotted name. *)
Fixpoint dotless (s : string) : bool :=
  match s with
  | EmptyString => true
  | String c rest => negb (Ascii.eqb c ".") && dotless rest
  end.

(** The classification of the parameter names as the specification
    gives it: a name that starts with [embeddings] is in layer 0; a name
    [encoder.<segment>.<i>.<rest>], whose third dot-separated segment
    [<i>] is a decimal numeral (of at most 4300 digits, the most [int]
    reads), is in layer [i]; a name that starts with [pooler] is in the
    layer of maximum index, [sys.maxsize]. *)
Inductive layer_spec : string -> Z -> Prop :=
| layer_spec_embeddings (rest : string) :
    layer_spec ("embeddings" +:+ rest) 0
| layer_spec_encoder (segment : string) (ds : list nat) (rest : string) :
    dotless segment = true ->
    ds <> [] ->
    Forall (fun d => (d < 10)%nat) ds ->
    (length ds <= 4300)%nat ->
    layer_spec ("encoder." +:+ segment +:+ "." +:+ digits_string ds +:+ "." +:+ rest)
               (digits_value ds)
| layer_spec_pooler (rest : string) :
    layer_spec ("pooler" +:+ rest) maxsize.

End HuggingFaceLightningModule.

(** ** Sample objects used by the examples below *)

Module Samples.
Import HuggingFaceMetric.

(** A metric whose [compute] succeeds with a one-entry mapping. *)
Definition f1_result : gmap string value :=
  {[ "f1" := VFloat (S754_finite false 4503599627370496 (-53)) ]}.

Definition f1_metric : EvaluateMetric :=
  {| em_name := "f1";
     em_str := "EvaluationModule(name: f1)";
     em_compute := fun _ => Return (VDict f1_result) |}.


Definition f1_macro : HuggingFaceMetric.t :=
  {| name := "f1"; metric := f1_metric;
     compute_kwargs := {[ "average" := VStr "macro" ]} |}.


Definition labels : value := VList [VInt 0; VInt 1; VInt 1].

(** A loader that knows no metric. *)
Definition no_load (s : string) (kw : gmap string value) : result EvaluateMetric :=
  Raise (ValueError "unknown metric").

(** The parameters of a two-layer BERT encoder, all trainable. *)
Definition bert : HuggingFaceLightningModule.Model :=
  {| HuggingFaceLightningModule.num_hidden_layers := 2;
     HuggingFaceLightningModule.base_model :=
       [ {| HuggingFaceLightningModule.name := "embeddings.word_embeddings.weight";
            HuggingFaceLightningModule.requires_grad := true |};
         {| HuggingFaceLightningModule.name := "encoder.layer.0.attention.self.query.weight";
            HuggingFaceLightningModule.requires_grad := true |};
         {| HuggingFaceLightningModule.name := "encoder.layer.1.attention.self.query.weight";
            HuggingFaceLightningModule.requires_grad := true |};
         {| HuggingFaceLightningModule.name := "pooler.dense.weight";
            HuggingFaceLightningModule.requires_grad := true |} ] |}.

(** The first parameters of a six-layer DistilBERT encoder: its layers
    live under [transformer], not under [encoder]. *)
Definition distilbert : HuggingFaceLightningModule.Model :=
  {| HuggingFaceLightningModule.num_hidden_layers := 6;
     HuggingFaceLightningModule.base_model :=
       [ {| HuggingFaceLightningModule.name := "embeddings.word_embeddings.weight";
            HuggingFaceLightningModule.requires_grad := true |};
         {| HuggingFaceLightningModule.name := "transformer.layer.0.attention.q_lin.weight";
            HuggingFaceLightningModule.requires_grad := true |} ] |}.

(** A data module with two labels and [len] training examples. *)
Definition sentiment (len : nat) : HuggingFaceLightningModule.DataModule :=
  {| HuggingFaceLightningModule.dm_target_names := VList [VStr "negative"; VStr "positive"];
     HuggingFaceLightningModule.dataset_len := len |}.

(** A module that asks for a scheduler, attached to a trainer, before
    [setup]. *)
Definition module_with (len : nat) (batch devices accumulate : Z) (epochs : option Z)
  : HuggingFaceLightningModule.t :=
  {| HuggingFaceLightningModule.hparams :=
       {| HuggingFaceLightningModule.hp_num_classes := 2;
          HuggingFaceLightningModule.hp_use_scheduler := true;
          HuggingFaceLightningModule.hp_train_batch_size := batch |};
     HuggingFaceLightningModule.trainer :=
       Some {| HuggingFaceLightningModule.datamodule := Some (sentiment len);
               HuggingFaceLightningModule.max_epochs := epochs;
               HuggingFaceLightningModule.num_devices := devices;
               HuggingFaceLightningModule.accumulate_grad_batches := accumulate |};
     HuggingFaceLightningModule.model := bert;
     HuggingFaceLightningModule.metrics := None;
     HuggingFaceLightningModule.train_metrics := None;
     HuggingFaceLightningModule.val_metrics := None;
     HuggingFaceLightningModule.test_metrics := None;
     HuggingFaceLightningModule.target_names := VNone;
     HuggingFaceLightningModule.total_steps := None |}.

(** A freshly constructed module, attached to nothing. *)
Definition fresh : HuggingFaceLightningModule.t :=
  {| HuggingFaceLightningModule.hparams :=
       {| HuggingFaceLightningModule.hp_num_classes := 2;
          HuggingFaceLightningModule.hp_use_scheduler := false;
          HuggingFaceLightningModule.hp_train_batch_size := 8 |};
     HuggingFaceLightningModule.trainer := None;
     HuggingFaceLightningModule.model := bert;
     HuggingFaceLightningModule.metrics := None;
     HuggingFaceLightningModule.train_metrics := None;
     HuggingFaceLightningModule.val_metrics := None;
     HuggingFaceLightningModule.test_metrics := None;
     HuggingFaceLightningModule.target_names := VNone;
     HuggingFaceLightningModule.total_steps := None |}.

(** A model that answers with the keyword arguments it was called with. *)
Definition echo (inputs : gmap string value) : result value := Return (VDict inputs).

(** A metric whose [compute] returns nothing. *)
Definition silent_metric : HuggingFaceMetric.EvaluateMetric :=
  {| HuggingFaceMetric.em_name := "f1";
     HuggingFaceMetric.em_str := "EvaluationModule(name: f1)";
     HuggingFaceMetric.em_compute := fun _ => Return VNone |}.

Definition silent : HuggingFaceMetric.t :=
  {| HuggingFaceMetric.name := "f1"; HuggingFaceMetric.metric := silent_metric;
     HuggingFaceMetric.compute_kwargs := ∅ |}.

(** The conversion of strings in an f-string; other values are not
    needed by the examples. *)
Definition format_str (v : value) : string :=
  match v with
  | VStr s => s
  | _ => "?"
  end.

(** Two classes of [torch.optim]: [AdamW] takes [lr] and [eps], [SGD]
    has no [eps]. *)
Definition torch_optim : gmap string LightningModule.OptimizerClass :=
  {[ "AdamW" := {| LightningModule.signature :=
                     ["params"; "lr"; "betas"; "eps"; "weight_decay"; "amsgrad"] |};
     "SGD" := {| LightningModule.signature :=
                   ["params"; "lr"; "momentum"; "dampening"; "weight_decay"; "nesterov"] |} ]}.

Definition adamw : LightningModule.OptimHParams :=
  {| LightningModule.hp_optimizer := "AdamW";
     LightningModule.hp_learning_rate := VFloat (S754_finite false 5902958103587057 (-68));
     LightningModule.hp_adam_epsilon := VFloat (S754_finite false 6044629098073146 (-79));
     LightningModule.hp_warmup_steps := VInt 100;
     LightningModule.hp_weight_decay := VFloat (S754_finite false 5764607523034235 (-59)) |}.

(** Named parameters of a classifier, each parameter standing for
    itself by a number. *)
Definition classifier_parameters : list (string * nat) :=
  [ ("model.bert.embeddings.word_embeddings.weight", 0%nat);
    ("model.bert.embeddings.LayerNorm.weight", 1%nat);
    ("model.bert.embeddings.LayerNorm.bias", 2%nat);
    ("model.bert.encoder.layer.0.attention.self.query.weight", 3%nat);
    ("model.bert.encoder.layer.0.attention.self.query.bias", 4%nat);
    ("model.classifier.weight", 5%nat);
    ("model.classifier.bias", 6%nat) ].

(** A trainer's [predict] that finds no checkpoint to load. *)
Definition predict_unfitted (ckpt_path : option string) : result (list Z) :=
  match ckpt_path with
  | Some _ => Raise (LightningModule.MisconfigurationException "no checkpoint")
  | None => Return [1; 0; 1]
  end.

(** A module attached to a trainer, with no scheduler asked for. *)
Definition module_without_scheduler : HuggingFaceLightningModule.t :=
  {| HuggingFaceLightningModule.hparams :=
       {| HuggingFaceLightningModule.hp_num_classes := 3;
          HuggingFaceLightningModule.hp_use_scheduler := false;
          HuggingFaceLightningModule.hp_train_batch_size := 8 |};
     HuggingFaceLightningModule.trainer :=
       Some {| HuggingFaceLightningModule.datamodule := Some (sentiment 1000);
               HuggingFaceLightningModule.max_epochs := None;
               HuggingFaceLightningModule.num_devices := 1;
               HuggingFaceLightningModule.accumulate_grad_batches := 1 |};
     HuggingFaceLightningModule.model := bert;
     HuggingFaceLightningModule.metrics := None;
     HuggingFaceLightningModule.train_metrics := None;
     HuggingFaceLightningModule.val_metrics := None;
     HuggingFaceLightningModule.test_metrics := None;
     HuggingFaceLightningModule.target_names := VNone;
     HuggingFaceLightningModule.total_steps := None |}.

(** The first parameters of an ALBERT encoder: the second one has no
    layer number in its third segment. *)
Definition albert : HuggingFaceLightningModule.Model :=
  {| HuggingFaceLightningModule.num_hidden_layers := 12;
     HuggingFaceLightningModule.base_model :=
       [ {| HuggingFaceLightningModule.name := "embeddings.word_embeddings.weight";
            HuggingFaceLightningModule.requires_grad := true |};
         {| HuggingFaceLightningModule.name := "encoder.embedding_hidden_mapping_in.weight";
            HuggingFaceLightningModule.requires_grad := true |};
         {| HuggingFaceLightningModule.name :=
              "encoder.albert_layer_groups.0.albert_layers.0.attention.query.weight";
            HuggingFaceLightningModule.requires_grad := true |} ] |}.

End Samples.

(* ===================================================================== *)
(** * Part II. Lemmas and theorems                                        *)
(* ===================================================================== *)

(** ** Outcomes and keyword arguments *)

Section PyFacts.

Lemma bind_return {A B : Type} (a : A) (k : A -> result B) :
  (Return a ≫= k) = k a.
Proof. reflexivity. Qed.

Lemma bind_raise {A B : Type} (e : exn) (k : A -> result B) :
  (Raise e ≫= k) = Raise e.
Proof. reflexivity. Qed.


Lemma TypeError_not_recovered (msg : string) :
  handles HuggingFaceMetric.recovered (TypeError msg) = false.
Proof. reflexivity. Qed.

Lemma AssertionError_not_recovered (msg : string) :
  handles HuggingFaceMetric.recovered (AssertionError msg) = false.
Proof. reflexivity. Qed.

(** Two unpacked mappings after the written keywords: the call is bound
    exactly when the three groups of keywords are pairwise disjoint. *)
Lemma unpack_kwargs_two (acc d1 d2 : gmap string value) :
  unpack_kwargs acc [d1; d2] =
    if bool_decide (acc ##ₘ d1 /\ acc ##ₘ d2 /\ d1 ##ₘ d2)
    then Return (acc ∪ d1 ∪ d2)
    else Raise (TypeError "got multiple values for keyword argument").
Proof.
  simpl. rewrite dom_union_L.
  repeat case_bool_decide; try reflexivity; exfalso.
  - match goal with H : ¬ (_ /\ _) |- _ => apply H end.
    rewrite !map_disjoint_dom. set_solver.
  - match goal with H : _ /\ _ |- _ => destruct H as (H1 & H2 & H3) end.
    rewrite map_disjoint_dom in H1, H2, H3. set_solver.
  - match goal with H : _ /\ _ |- _ => destruct H as (H1 & H2 & H3) end.
    rewrite map_disjoint_dom in H1. set_solver.
Qed.

(** On small operands [a / b] is the quotient of the converted
    operands. *)
Lemma int_truediv_small_operands :
  forallb (fun a : nat =>
    forallb (fun b : nat =>
      match int_truediv (Z.of_nat a) (Z.of_nat (S b)),
            float_of_int (Z.of_nat a), float_of_int (Z.of_nat (S b)) with
      | Return q, Return fa, Return fb => float_same q (SFdiv prec emax fa fb)
      | _, _, _ => false
      end) (seq 0 64)) (seq 0 64) = true.
Proof. vm_compute. reflexivity. Qed.

(** [1 / 3] is the double [0x1.5555555555555p-2]. *)
Example int_truediv_third :
  int_truediv 1 3 = Return (S754_finite false 6004799503160661 (-54)).
Proof. vm_compute. reflexivity. Qed.

End PyFacts.

(** ** The metric adapter *)

Section HuggingFaceMetricFacts.
Import HuggingFaceMetric.

Implicit Types (self : HuggingFaceMetric.t) (kwargs : gmap string value).

Lemma init_rejected load metric_arg ck init_kwargs (pid : value) :
  init_kwargs !! "process_id" = Some pid ->
  eq_int pid 0 = false ->
  init load metric_arg ck init_kwargs = Raise invalid_process_id.
Proof.
  intros Hpid Hne. unfold init. rewrite Hpid. simpl. rewrite Hne. reflexivity.
Qed.

Lemma init_accepted load metric_arg ck init_kwargs :
  eq_int (default (VInt 0) (init_kwargs !! "process_id")) 0 = true ->
  init load metric_arg ck init_kwargs = constructed load metric_arg ck init_kwargs.
Proof.
  intros Heq. unfold init. rewrite Heq. reflexivity.
Qed.

(** C6. Construction with a process id different from 0 fails with the
    invalid-process-id error, whatever the other arguments are; with
    process id 0, or with no process id among the keyword arguments, the
    check passes and construction is the wrapping of the metric: it
    succeeds for a metric instance, and for a metric name it succeeds
    as soon as the external loader does. *)
Theorem init_process_id load metric_arg ck init_kwargs :
  (forall pid : Z, pid <> 0 ->
     init load metric_arg ck (<["process_id" := VInt pid]> init_kwargs)
     = Raise invalid_process_id)
  /\ (forall v : value, eq_int v 0 = false ->
        init load metric_arg ck (<["process_id" := v]> init_kwargs)
        = Raise invalid_process_id)
  /\ init load metric_arg ck (<["process_id" := VInt 0]> init_kwargs)
     = constructed load metric_arg ck (<["process_id" := VInt 0]> init_kwargs)
  /\ init load metric_arg ck (delete "process_id" init_kwargs)
     = constructed load metric_arg ck (delete "process_id" init_kwargs)
  /\ (forall kw m, metric_arg = inr m ->
        constructed load metric_arg ck kw
        = Return {| name := em_str m; metric := m; compute_kwargs := default ∅ ck |})
  /\ (forall kw s m, metric_arg = inl s -> load s kw = Return m ->
        constructed load metric_arg ck kw
        = Return {| name := s; metric := m; compute_kwargs := default ∅ ck |}).
Proof.
  repeat split.
  - intros pid Hpid. apply init_rejected with (pid := VInt pid).
    + apply lookup_insert_eq.
    + simpl. apply Z.eqb_neq. exact Hpid.
  - intros v Hv. apply init_rejected with (pid := v); [apply lookup_insert_eq | exact Hv].
  - apply init_accepted. rewrite lookup_insert_eq. reflexivity.
  - apply init_accepted. rewrite lookup_delete_eq. reflexivity.
  - intros kw m ->. reflexivity.
  - intros kw s m -> Hload. simpl. rewrite Hload. reflexivity.
Qed.

(** C6, at process id 1 and a metric given as an instance. *)
Lemma init_process_id_witness :
  init Samples.no_load (inr Samples.f1_metric) None (<["process_id" := VInt 1]> ∅)
  = Raise invalid_process_id.
Proof.
  apply (proj1 (init_process_id Samples.no_load (inr Samples.f1_metric) None ∅) 1).
  discriminate.
Defined.

Lemma compute_calls_bound self y_true y_pred kwargs args :
  args ∈ (compute self y_true y_pred kwargs).2 <->
  call_arguments self y_true y_pred kwargs = Return args.
Proof.
  unfold compute. cbv zeta. cbn [snd].
  destruct (call_arguments self y_true y_pred kwargs) as [a | e].
  - rewrite list_elem_of_singleton. split; congruence.
  - split; [intros H; inversion H | discriminate].
Qed.

Lemma compute_bound self y_true y_pred kwargs args :
  call_arguments self y_true y_pred kwargs = Return args ->
  compute self y_true y_pred kwargs =
    (try_except
       (result ← em_compute (metric self) args;
        match result with
        | VDict d => Return d
        | _ => Raise (AssertionError "")
        end)
       recovered (Return (sentinel self)),
     [args]).
Proof.
  unfold compute. intros ->. reflexivity.
Qed.

Lemma compute_unbound self y_true y_pred kwargs e :
  call_arguments self y_true y_pred kwargs = Raise e ->
  handles recovered e = false ->
  compute self y_true y_pred kwargs = (Raise e, []).
Proof.
  unfold compute. intros -> He. cbv zeta.
  rewrite bind_raise. unfold try_except. rewrite He. reflexivity.
Qed.



Lemma call_arguments_separate self (y_true y_pred : value) kwargs :
  explicit y_true y_pred ##ₘ compute_kwargs self ->
  explicit y_true y_pred ##ₘ kwargs ->
  compute_kwargs self ##ₘ kwargs ->
  call_arguments self y_true y_pred kwargs
  = Return (explicit y_true y_pred ∪ compute_kwargs self ∪ kwargs).
Proof.
  intros H1 H2 H3. unfold call_arguments. rewrite unpack_kwargs_two.
  rewrite bool_decide_eq_true_2; [reflexivity |].
  split; [exact H1 | split; [exact H2 | exact H3]].
Qed.

Lemma explicit_disjoint (y_true y_pred : value) (d : gmap string value) :
  d !! "references" = None -> d !! "predictions" = None ->
  explicit y_true y_pred ##ₘ d.
Proof.
  intros Hr Hp. unfold explicit.
  apply map_disjoint_insert_l_2; [exact Hp |].
  apply map_disjoint_insert_l_2; [exact Hr |].
  apply map_disjoint_empty_l.
Qed.


(** C5, as stated, fails: with the fixed option [average = "macro"] and
    the call-time override [average = "micro"] the call of the wrapped
    metric cannot be bound; a [TypeError] leaves [compute] and the
    wrapped metric is not entered. *)
Lemma compute_shared_key_counterexample :
  compute Samples.f1_macro Samples.labels Samples.labels {[ "average" := VStr "micro" ]}
  = (Raise (TypeError "got multiple values for keyword argument"), []).
Proof.
  apply compute_unbound; [| reflexivity].
  unfold call_arguments. rewrite unpack_kwargs_two.
  rewrite bool_decide_eq_false_2; [reflexivity |].
  intros (_ & _ & Hd). simpl in Hd.
  apply map_disjoint_singleton_l in Hd. rewrite lookup_singleton_eq in Hd. discriminate.
Qed.

(** C5, amended. When the written keywords [references] and
    [predictions], the fixed options and the call-time options share no
    key, [compute] enters the wrapped metric's [compute] exactly once,
    with [references], [predictions] and every option of both mappings
    at its value. When two of them share a key, a [TypeError] leaves
    [compute] and the wrapped metric is not entered. *)
Theorem compute_delegates_once self (y_true y_pred : value) kwargs :
  let ck := compute_kwargs self in
  let ex := explicit y_true y_pred in
  let separate := ex ##ₘ ck /\ ex ##ₘ kwargs /\ ck ##ₘ kwargs in
  (separate ->
     exists args,
       (compute self y_true y_pred kwargs).2 = [args]
       /\ args = ex ∪ ck ∪ kwargs
       /\ args !! "references" = Some y_true
       /\ args !! "predictions" = Some y_pred
       /\ (forall k v, ck !! k = Some v -> args !! k = Some v)
       /\ (forall k v, kwargs !! k = Some v -> args !! k = Some v))
  /\ (~ separate ->
        compute self y_true y_pred kwargs
        = (Raise (TypeError "got multiple values for keyword argument"), [])).
Proof.
  cbv zeta. split.
  - intros (Hec & Hek & Hck).
    exists (explicit y_true y_pred ∪ compute_kwargs self ∪ kwargs).
    assert (Hcall : call_arguments self y_true y_pred kwargs
                    = Return (explicit y_true y_pred ∪ compute_kwargs self ∪ kwargs)).
    { apply call_arguments_separate; assumption. }
    rewrite (compute_bound _ _ _ _ _ Hcall). cbn [snd].
    repeat split.
    + apply lookup_union_Some_l, lookup_union_Some_l. unfold explicit.
      rewrite lookup_insert_ne by discriminate. apply lookup_insert_eq.
    + apply lookup_union_Some_l, lookup_union_Some_l. unfold explicit.
      apply lookup_insert_eq.
    + intros k v Hk. apply lookup_union_Some_l.
      apply lookup_union_Some_raw. right. split; [| exact Hk].
      exact (map_disjoint_Some_r _ _ _ _ Hec Hk).
    + intros k v Hk. apply lookup_union_Some_raw. right. split; [| exact Hk].
      apply lookup_union_None. split.
      * exact (map_disjoint_Some_r _ _ _ _ Hek Hk).
      * exact (map_disjoint_Some_r _ _ _ _ Hck Hk).
  - intros Hn. apply compute_unbound; [| reflexivity].
    unfold call_arguments. rewrite unpack_kwargs_two.
    rewrite bool_decide_eq_false_2; [reflexivity | exact Hn].
Qed.

(** C5, amended, at the fixed option [average = "macro"] and the
    call-time option [zero_division = 0]. *)
Lemma compute_delegates_once_witness :
  exists args,
    (compute Samples.f1_macro Samples.labels Samples.labels
       {[ "zero_division" := VInt 0 ]}).2 = [args]
    /\ args !! "average" = Some (VStr "macro")
    /\ args !! "zero_division" = Some (VInt 0).
Proof.
  destruct (proj1 (compute_delegates_once Samples.f1_macro Samples.labels Samples.labels
                     {[ "zero_division" := VInt 0 ]})) as (args & Hc & _ & _ & _ & Hck & Hkw).
  - split; [| split].
    + apply explicit_disjoint; reflexivity.
    + apply explicit_disjoint; reflexivity.
    + simpl. apply map_disjoint_singleton_l. reflexivity.
  - exists args. repeat split.
    + exact Hc.
    + apply Hck. reflexivity.
    + apply Hkw. reflexivity.
Defined.

End HuggingFaceMetricFacts.

(** ** The default metrics *)

Section LightningModuleFacts.
Import LightningModule.

Lemma get_default_metrics_few (n : Z) :
  n <= 2 ->
  metrics_of (get_default_metrics n)
  = list_to_map (multiclass_variants n ++ binary_variants n)%list.
Proof.
  intros Hn. apply Z.leb_le in Hn.
  unfold get_default_metrics. rewrite Hn. vm_compute. reflexivity.
Qed.

Lemma get_default_metrics_many (n : Z) :
  2 < n ->
  metrics_of (get_default_metrics n) = list_to_map (multiclass_variants n).
Proof.
  intros Hn. apply Z.leb_gt in Hn.
  unfold get_default_metrics. rewrite Hn. vm_compute. reflexivity.
Qed.

Lemma multiclass_variants_task (n : Z) :
  Forall (fun entry => task entry.2 = "multiclass") (multiclass_variants n).
Proof. repeat constructor. Qed.

Lemma binary_variants_task (n : Z) :
  Forall (fun entry => task entry.2 = "binary") (binary_variants n).
Proof. repeat constructor. Qed.

Lemma variants_NoDup (n : Z) :
  NoDup ((multiclass_variants n ++ binary_variants n)%list).*1.
Proof. simpl. apply (bool_decide_unpack _). vm_compute. exact I. Qed.

(** The dictionary of the default metrics holds the micro- and
    macro-averaged multiclass variants of F1, precision and recall and
    the multiclass accuracy; it holds the binary variant of each of the
    four exactly when [n <= 2]; it holds nothing else. *)
Lemma get_default_metrics_content (n : Z) :
  let mc := metrics_of (get_default_metrics n) in
  mc = list_to_map (multiclass_variants n ++ (if n <=? 2 then binary_variants n else []))%list
  /\ (forall name m, (name, m) ∈ multiclass_variants n -> mc !! name = Some m)
  /\ (forall name m, (name, m) ∈ binary_variants n ->
        (n <= 2 -> mc !! name = Some m) /\ (2 < n -> mc !! name = None))
  /\ (forall name m, mc !! name = Some m ->
        (name, m) ∈ multiclass_variants n \/ (n <= 2 /\ (name, m) ∈ binary_variants n))
  /\ (2 < n -> forall name m, mc !! name = Some m -> task m = "multiclass").
Proof.
  cbv zeta.
  assert (Heq : metrics_of (get_default_metrics n)
                = list_to_map (multiclass_variants n ++
                                 (if n <=? 2 then binary_variants n else []))%list).
  { destruct (n <=? 2) eqn:Hn.
    - apply get_default_metrics_few, Z.leb_le, Hn.
    - rewrite app_nil_r. apply get_default_metrics_many, Z.leb_gt, Hn. }
  assert (Hnd : NoDup ((multiclass_variants n ++
                         (if n <=? 2 then binary_variants n else []))%list).*1).
  { destruct (n <=? 2).
    - apply variants_NoDup.
    - rewrite app_nil_r. pose proof (variants_NoDup n) as H.
      rewrite fmap_app in H. apply NoDup_app in H. tauto. }
  assert (Hlookup : forall name m,
             metrics_of (get_default_metrics n) !! name = Some m <->
             (name, m) ∈ (multiclass_variants n ++
                          (if n <=? 2 then binary_variants n else []))%list).
  { intros name m. rewrite Heq. symmetry. apply elem_of_list_to_map. exact Hnd. }
  split; [exact Heq |]. split; [| split; [| split]].
  - intros name m Hin. apply Hlookup. apply elem_of_app. left. exact Hin.
  - intros name m Hin. split.
    + intros Hn. apply Hlookup. apply Z.leb_le in Hn. rewrite Hn.
      apply elem_of_app. right. exact Hin.
    + intros Hn. apply Z.leb_gt in Hn.
      destruct (metrics_of (get_default_metrics n) !! name) as [m' |] eqn:Hm; [| reflexivity].
      exfalso. apply Hlookup in Hm. rewrite Hn, app_nil_r in Hm.
      pose proof (variants_NoDup n) as Hd. rewrite fmap_app in Hd.
      apply NoDup_app in Hd as (_ & Hd & _).
      apply (Hd name).
      * apply list_elem_of_fmap. exists (name, m'). split; [reflexivity | exact Hm].
      * apply list_elem_of_fmap. exists (name, m). split; [reflexivity | exact Hin].
  - intros name m Hm. apply Hlookup in Hm. apply elem_of_app in Hm as [Hm | Hm].
    + left. exact Hm.
    + right. destruct (n <=? 2) eqn:Hn.
      * split; [apply Z.leb_le, Hn | exact Hm].
      * inversion Hm.
  - intros Hn name m Hm. apply Hlookup in Hm. apply Z.leb_gt in Hn.
    rewrite Hn, app_nil_r in Hm.
    pose proof (multiclass_variants_task n) as Ht.
    rewrite Forall_forall in Ht. apply (Ht (name, m)). exact Hm.
Qed.

(** The constructors accept two classes or more, and then the method
    returns the dictionary; with fewer classes the first multiclass
    constructor, that of the micro-averaged F1, rejects its arguments. *)
Lemma get_default_metrics_run_accepted (n : Z) :
  2 <= n -> get_default_metrics_run n = Return (get_default_metrics n).
Proof.
  intros Hn. assert (Hlt : (n <? 2) = false) by (apply Z.ltb_ge; lia).
  unfold get_default_metrics_run, get_default_metrics, construct.
  destruct (n <=? 2); cbn; rewrite ?Hlt; cbn; reflexivity.
Qed.

Lemma get_default_metrics_run_rejected (n : Z) :
  n < 2 ->
  get_default_metrics_run n
  = Raise (ValueError "Expected argument `num_classes` to be an integer larger than 1").
Proof.
  intros Hn. assert (Hlt : (n <? 2) = true) by (apply Z.ltb_lt; lia).
  assert (Hle : (n <=? 2) = true) by (apply Z.leb_le; lia).
  unfold get_default_metrics_run, construct. rewrite Hle. cbn. rewrite Hlt. reflexivity.
Qed.

(** C8, as stated, fails for a single class: 1 is at most 2, and no
    collection is returned, with or without binary variants; the
    constructor of the multiclass F1 raises [ValueError]. *)
Lemma get_default_metrics_one_class_counterexample :
  1 <= 2
  /\ (forall c, get_default_metrics_run 1 <> Return c)
  /\ exists e, get_default_metrics_run 1 = Raise e /\ isinstance e "ValueError" = true.
Proof.
  split; [lia |]. split.
  - intros c. vm_compute. discriminate.
  - eexists. split; [vm_compute; reflexivity | reflexivity].
Qed.

(** C8, amended. For two classes or more [get_default_metrics] returns
    a collection that holds the micro- and macro-averaged multiclass
    variants of F1, precision and recall and the multiclass accuracy; it
    holds the binary variant of each of the four exactly when there are
    two classes; it holds nothing else, so that with more than two
    classes every metric of the collection is a multiclass one. For
    fewer than two classes the call raises [ValueError] and returns no
    collection. *)
Theorem get_default_metrics_variants (n : Z) :
  (n < 2 -> exists e, get_default_metrics_run n = Raise e
                      /\ isinstance e "ValueError" = true)
  /\ (2 <= n ->
      exists c, get_default_metrics_run n = Return c
        /\ prefix c = None
        /\ metrics_of c
           = list_to_map (multiclass_variants n ++
                            (if n =? 2 then binary_variants n else []))%list
        /\ (forall name m, (name, m) ∈ multiclass_variants n ->
              metrics_of c !! name = Some m)
        /\ (forall name m, (name, m) ∈ binary_variants n ->
              (n = 2 -> metrics_of c !! name = Some m)
              /\ (2 < n -> metrics_of c !! name = None))
        /\ (forall name m, metrics_of c !! name = Some m ->
              (name, m) ∈ multiclass_variants n
              \/ (n = 2 /\ (name, m) ∈ binary_variants n))
        /\ (2 < n -> forall name m, metrics_of c !! name = Some m ->
              task m = "multiclass")).
Proof.
  split.
  - intros Hn. rewrite (get_default_metrics_run_rejected n Hn).
    eexists. split; reflexivity.
  - intros Hn. exists (get_default_metrics n).
    split; [apply get_default_metrics_run_accepted, Hn |].
    split; [reflexivity |].
    destruct (get_default_metrics_content n) as (Heq & Hmulti & Hbin & Honly & Htask).
    assert (Hsame : (n =? 2) = (n <=? 2)).
    { destruct (n =? 2) eqn:H2; destruct (n <=? 2) eqn:Hle2; try reflexivity.
      - apply Z.eqb_eq in H2. apply Z.leb_gt in Hle2. lia.
      - apply Z.eqb_neq in H2. apply Z.leb_le in Hle2. lia. }
    split; [rewrite Hsame; exact Heq |]. split; [exact Hmulti |].
    split; [| split; [| exact Htask]].
    + intros name m Hin. destruct (Hbin name m Hin) as [Hfew Hmany].
      split; [intros ->; apply Hfew; lia | exact Hmany].
    + intros name m Hm. destruct (Honly name m Hm) as [H | [Hle H]].
      * left. exact H.
      * right. split; [lia | exact H].
Qed.

(** C8, amended, at two classes: the binary F1 is part of the
    collection. *)
Lemma get_default_metrics_variants_witness :
  exists c, get_default_metrics_run 2 = Return c
    /\ metrics_of c !! "f1_binary"
       = Some {| cls := F1Score; task := "binary"; num_classes := 2; average := None |}.
Proof.
  destruct (proj2 (get_default_metrics_variants 2)) as (c & Hrun & _ & _ & _ & Hbin & _).
  - lia.
  - exists c. split; [exact Hrun |].
    refine (proj1 (Hbin "f1_binary" _ _) eq_refl).
    unfold binary_variants. apply list_elem_of_here.
Defined.

End LightningModuleFacts.

(** ** Freezing the transformer *)

Section FreezeFacts.
Import HuggingFaceLightningModule.

Implicit Types (p q : NamedParameter) (ps : list NamedParameter) (m : Model).

Lemma below_spec (T : Z) p :
  below T p = true <-> exists l, layer_of_name (name p) = Return l /\ l < T.
Proof.
  unfold below. destruct (layer_of_name (name p)) as [l | e].
  - rewrite Z.ltb_lt. split.
    + intros H. exists l. split; [reflexivity | exact H].
    + intros (l' & [= <-] & H). exact H.
  - split; [discriminate | intros (l & Hl & _); discriminate].
Qed.

Lemma below_return (T : Z) p (l : Z) :
  layer_of_name (name p) = Return l -> below T p = (l <? T).
Proof. unfold below. intros ->. reflexivity. Qed.

Lemma below_raise (T : Z) p (e : exn) :
  layer_of_name (name p) = Raise e -> below T p = false.
Proof. unfold below. intros ->. reflexivity. Qed.

Lemma freeze_loop_length (T : Z) ps :
  length (freeze_loop T ps).1 = length ps.
Proof.
  induction ps as [| p rest IH]; simpl; [reflexivity |].
  destruct (layer_of_name (name p)) as [l | e]; [| reflexivity].
  destruct (T <=? l); [reflexivity |].
  destruct (freeze_loop T rest) as [rest' r]. simpl in *. congruence.
Qed.

(** The loop only ever writes [False], and keeps the names. *)
Lemma freeze_loop_only_disables (T : Z) ps :
  Forall2 (fun p p' => name p' = name p
                       /\ (requires_grad p = false -> requires_grad p' = false)
                       /\ (requires_grad p' = true -> requires_grad p = true))
          ps (freeze_loop T ps).1.
Proof.
  assert (Hrefl : forall l : list NamedParameter,
             Forall2 (fun p p' => name p' = name p
                       /\ (requires_grad p = false -> requires_grad p' = false)
                       /\ (requires_grad p' = true -> requires_grad p = true)) l l).
  { intros l. induction l; constructor; auto. }
  induction ps as [| p rest IH]; simpl; [constructor |].
  destruct (layer_of_name (name p)) as [l | e]; [| apply Hrefl].
  destruct (T <=? l); [apply Hrefl |].
  destruct (freeze_loop T rest) as [rest' r]. simpl in *.
  constructor; [| exact IH].
  split; [reflexivity |]. split; [reflexivity | discriminate].
Qed.

(** The parameter at position [i] is frozen exactly when it and all the
    parameters before it are assigned layers below the threshold. *)
Lemma freeze_loop_lookup (T : Z) ps (i : nat) p :
  ps !! i = Some p ->
  (freeze_loop T ps).1 !! i
  = Some (if forallb (below T) (take (S i) ps) then freeze p else p).
Proof.
  revert i. induction ps as [| p0 rest IH]; intros i Hi; [discriminate |].
  change (take (S i) (p0 :: rest)) with (p0 :: take i rest).
  cbn [forallb]. simpl freeze_loop.
  destruct (layer_of_name (name p0)) as [l | e] eqn:Hl.
  - rewrite (below_return T p0 l Hl).
    destruct (T <=? l) eqn:Hle.
    + assert ((l <? T) = false) as -> by (apply Z.ltb_ge, Z.leb_le, Hle).
      cbn [fst andb]. exact Hi.
    + assert ((l <? T) = true) as -> by (apply Z.ltb_lt, Z.leb_gt, Hle).
      destruct (freeze_loop T rest) as [rest' r] eqn:Hrest. cbn [fst andb].
      destruct i as [| i].
      * injection Hi as ->. reflexivity.
      * simpl in Hi. specialize (IH i Hi). cbn [fst] in IH.
        change ((freeze p0 :: rest') !! S i) with (rest' !! i). exact IH.
  - rewrite (below_raise T p0 e Hl). cbn [fst andb]. exact Hi.
Qed.

(** The outcome of the loop is that of the first parameter that is not
    assigned a layer below the threshold: the exception of its
    classification, if it has one. *)
Lemma freeze_loop_raise (T : Z) ps (e : exn) :
  (freeze_loop T ps).2 = Raise e <->
  exists (i : nat) p, ps !! i = Some p /\ layer_of_name (name p) = Raise e
                      /\ forallb (below T) (take i ps) = true.
Proof.
  induction ps as [| p0 rest IH].
  - simpl. split; [discriminate | intros (i & p & Hi & _); discriminate].
  - simpl freeze_loop. destruct (layer_of_name (name p0)) as [l | e0] eqn:Hl.
    + destruct (T <=? l) eqn:Hle.
      * cbn [snd]. split; [discriminate |].
        intros ([| i] & p & Hi & Hp & Hall).
        -- injection Hi as <-. congruence.
        -- exfalso. cbn [take forallb] in Hall.
           rewrite (below_return T p0 l Hl) in Hall.
           assert ((l <? T) = false) as Hlt by (apply Z.ltb_ge, Z.leb_le, Hle).
           rewrite Hlt in Hall. discriminate.
      * destruct (freeze_loop T rest) as [rest' r] eqn:Hrest. cbn [snd] in *.
        rewrite IH. split.
        -- intros (i & p & Hi & Hp & Hall). exists (S i), p.
           split; [exact Hi |]. split; [exact Hp |].
           cbn [take forallb]. rewrite (below_return T p0 l Hl).
           assert ((l <? T) = true) as -> by (apply Z.ltb_lt, Z.leb_gt, Hle).
           exact Hall.
        -- intros ([| i] & p & Hi & Hp & Hall).
           ++ injection Hi as <-. congruence.
           ++ exists i, p. split; [exact Hi |]. split; [exact Hp |].
              cbn [take forallb] in Hall. apply andb_true_iff in Hall. tauto.
    + cbn [snd]. split.
      * intros [= <-]. exists 0%nat, p0. repeat split; assumption.
      * intros ([| i] & p & Hi & Hp & Hall).
        -- injection Hi as <-. congruence.
        -- exfalso. cbn [take forallb] in Hall.
           rewrite (below_raise T p0 e0 Hl) in Hall. discriminate.
Qed.

Lemma forallb_take_spec (T : Z) ps (i : nat) :
  forallb (below T) (take i ps) = true <->
  forall (j : nat) q, (j < i)%nat -> ps !! j = Some q ->
     exists l, layer_of_name (name q) = Return l /\ l < T.
Proof.
  rewrite forallb_forall. split.
  - intros H j q Hj Hq. apply below_spec. apply H.
    apply list_elem_of_In. apply list_elem_of_lookup. exists j.
    rewrite lookup_take_lt by exact Hj. exact Hq.
  - intros H q Hq. apply list_elem_of_In, list_elem_of_lookup in Hq as (j & Hj).
    apply below_spec.
    destruct (decide (j < i)%nat) as [Hji | Hji].
    + rewrite lookup_take_lt in Hj by exact Hji. apply (H j q Hji Hj).
    + rewrite lookup_take_ge in Hj by lia. discriminate.
Qed.

Lemma layer_of_name_unrecognized (nm : string) :
  layer_of_name nm = Raise unrecognized <-> recognized nm = false.
Proof.
  unfold layer_of_name, recognized.
  destruct (startswith nm "embeddings"); [split; discriminate |].
  destruct (startswith nm "encoder").
  - split; [| discriminate]. unfold getitem.
    destruct (split "." nm !! 2%nat) as [segment |]; [| discriminate].
    rewrite bind_return. unfold int_of_str.
    match goal with |- context [match ?x with Some _ => _ | None => _ end] =>
      destruct x end; discriminate.
  - destruct (startswith nm "pooler"); [split; discriminate |].
    split; reflexivity.
Qed.

Lemma freeze_transformer_zero m :
  freeze_transformer 0 m
  = ({| num_hidden_layers := num_hidden_layers m;
        base_model := freeze <$> base_model m |}, Return tt).
Proof. reflexivity. Qed.

Lemma freeze_transformer_nonzero (n : Z) m :
  n <> 0 ->
  freeze_transformer n m
  = ({| num_hidden_layers := num_hidden_layers m;
        base_model := (freeze_loop (num_hidden_layers m - n) (base_model m)).1 |},
     (freeze_loop (num_hidden_layers m - n) (base_model m)).2).
Proof.
  intros Hn. unfold freeze_transformer. apply Z.eqb_neq in Hn. rewrite Hn.
  destruct (freeze_loop _ _). reflexivity.
Qed.

(** For [n] other than 0, in full generality: the parameter at position
    [i] ends frozen exactly when it and every parameter before it are
    assigned layers below the threshold; otherwise it is left as it
    was. *)
Lemma freeze_transformer_lookup (n : Z) m (i : nat) p :
  n <> 0 ->
  base_model m !! i = Some p ->
  base_model (freeze_transformer n m).1 !! i
  = Some (if forallb (below (num_hidden_layers m - n)) (take (S i) (base_model m))
          then freeze p else p).
Proof.
  intros Hn Hi. rewrite (freeze_transformer_nonzero n m Hn).
  cbn [fst base_model]. apply freeze_loop_lookup. exact Hi.
Qed.

(** [freeze_transformer(0)] disables the gradient of every parameter. *)
Lemma freeze_transformer_zero_all m :
  Forall (fun p => requires_grad p = false) (base_model (freeze_transformer 0 m).1).
Proof.
  rewrite freeze_transformer_zero. cbn [fst base_model].
  apply Forall_fmap. apply Forall_forall. intros p _. reflexivity.
Qed.

(** C10. Whatever the argument and whatever the outcome (normal return
    or exception), [freeze_transformer] leaves the sequence of parameter
    names as it was, a parameter whose flag was [False] still has it
    [False], and a parameter whose flag is [True] afterwards had it
    [True] before. *)
Theorem freeze_transformer_only_disables (n : Z) m :
  num_hidden_layers (freeze_transformer n m).1 = num_hidden_layers m
  /\ Forall2 (fun p p' => name p' = name p
                          /\ (requires_grad p = false -> requires_grad p' = false)
                          /\ (requires_grad p' = true -> requires_grad p = true))
             (base_model m) (base_model (freeze_transformer n m).1).
Proof.
  destruct (decide (n = 0)) as [-> | Hn].
  - rewrite freeze_transformer_zero. cbn [fst num_hidden_layers base_model].
    split; [reflexivity |].
    induction (base_model m) as [| p rest IH]; [constructor |].
    rewrite fmap_cons. constructor; [| exact IH].
    split; [reflexivity |]. split; [reflexivity | discriminate].
  - rewrite (freeze_transformer_nonzero n m Hn). cbn [fst num_hidden_layers base_model].
    split; [reflexivity |]. apply freeze_loop_only_disables.
Qed.

(** For [n >= 1] and a base model all of whose parameter names are
    assigned a layer by [layer_of_name], the call returns normally, and
    the parameter at position [i] of the traversal has its gradient
    disabled afterwards exactly when it was disabled before or its layer
    is below [totalLayers - n] and so is the layer of every parameter
    visited before it. With [n = totalLayers] and layers that are not
    negative, the model is left as it was. *)
Lemma freeze_transformer_crossing (n : Z) m (layers : list Z) :
  1 <= n ->
  Forall2 (fun p l => layer_of_name (name p) = Return l) (base_model m) layers ->
  (freeze_transformer n m).2 = Return tt
  /\ length (base_model (freeze_transformer n m).1) = length (base_model m)
  /\ (forall (i : nat) p (l : Z),
        base_model m !! i = Some p -> layers !! i = Some l ->
        exists p', base_model (freeze_transformer n m).1 !! i = Some p'
          /\ name p' = name p
          /\ (requires_grad p' = false <->
              requires_grad p = false
              \/ (l < num_hidden_layers m - n
                  /\ forall (j : nat) (l' : Z), (j < i)%nat -> layers !! j = Some l' ->
                       l' < num_hidden_layers m - n)))
  /\ (n = num_hidden_layers m -> Forall (fun l => 0 <= l) layers ->
        (freeze_transformer n m).1 = m).
Proof.
  intros Hn Hlayers.
  assert (Hn0 : n <> 0) by lia.
  rewrite (freeze_transformer_nonzero n m Hn0).
  cbn [fst snd base_model num_hidden_layers].
  set (T := num_hidden_layers m - n).
  assert (Hbelow : forall (i : nat),
             forallb (below T) (take (S i) (base_model m)) = true <->
             forall (j : nat) (l' : Z), (j <= i)%nat -> layers !! j = Some l' -> l' < T).
  { intros i. rewrite forallb_take_spec. split.
    - intros H j l' Hj Hl'.
      destruct (Forall2_lookup_r _ _ _ _ _ Hlayers Hl') as (q & Hq & Hql).
      destruct (H j q ltac:(lia) Hq) as (l0 & Hl0 & Hlt). congruence.
    - intros H j q Hj Hq.
      destruct (Forall2_lookup_l _ _ _ _ _ Hlayers Hq) as (l' & Hl' & Hql).
      exists l'. split; [exact Hql |]. apply (H j l'); [lia | exact Hl']. }
  split; [| split; [| split]].
  - destruct (freeze_loop T (base_model m)).2 as [[] | e] eqn:Hr; [reflexivity |].
    exfalso. apply freeze_loop_raise in Hr as (i & p & Hi & Hp & _).
    destruct (Forall2_lookup_l _ _ _ _ _ Hlayers Hi) as (l & _ & Hl). congruence.
  - apply freeze_loop_length.
  - intros i p l Hi Hl.
    rewrite (freeze_loop_lookup T _ i p Hi).
    destruct (forallb (below T) (take (S i) (base_model m))) eqn:Hall.
    + exists (freeze p). split; [reflexivity |]. split; [reflexivity |].
      split; [| reflexivity]. intros _. right.
      pose proof (proj1 (Hbelow i) Hall) as Hall'. split.
      * apply (Hall' i l); [lia | exact Hl].
      * intros j l' Hj Hl'. apply (Hall' j l'); [lia | exact Hl'].
    + exists p. split; [reflexivity |]. split; [reflexivity |].
      split; [intros H; left; exact H |].
      intros [H | [Hlt Hprev]]; [exact H |].
      exfalso. assert (Htrue : forallb (below T) (take (S i) (base_model m)) = true).
      { apply Hbelow. intros j l' Hj Hl'.
        destruct (decide (j = i)) as [-> | Hne].
        - congruence.
        - apply (Hprev j l'); [lia | exact Hl']. }
      congruence.
  - intros HnT Hpos.
    assert (HT : T = 0) by (unfold T; lia).
    destruct m as [nl ps]. cbn [base_model num_hidden_layers] in *. f_equal.
    apply list_eq. intros i.
    destruct (ps !! i) as [p |] eqn:Hi.
    + rewrite (freeze_loop_lookup T ps i p Hi).
      destruct (forallb (below T) (take (S i) ps)) eqn:Hall; [| reflexivity].
      exfalso. pose proof (proj1 (Hbelow i) Hall) as Hall'.
      destruct (Forall2_lookup_l _ _ _ _ _ Hlayers Hi) as (l & Hl & _).
      specialize (Hall' i l ltac:(lia) Hl).
      rewrite Forall_forall in Hpos.
      assert (0 <= l) by (apply Hpos; apply list_elem_of_lookup; eauto).
      lia.
    + apply lookup_ge_None. rewrite freeze_loop_length. apply lookup_ge_None. exact Hi.
Qed.

(** C7, as stated, fails on a DistilBERT encoder, whose layers are named
    [transformer...]: with [n = 0] every parameter is frozen without
    looking at its name, and with [n = 6] the loop stops at the
    embeddings, which are at the threshold, before it reaches the other
    name. Neither call raises. *)
Lemma freeze_transformer_unrecognized_counterexample :
  (exists p, p ∈ base_model Samples.distilbert /\ recognized (name p) = false)
  /\ (freeze_transformer 0 Samples.distilbert).2 = Return tt
  /\ (freeze_transformer 6 Samples.distilbert).2 = Return tt.
Proof.
  split; [| split; reflexivity].
  eexists. split; [apply list_elem_of_further, list_elem_of_here | reflexivity].
Qed.

(** C7, amended. [freeze_transformer(n)] raises the
    unrecognized-parameter error exactly when [n] is not 0 and the
    traversal reaches a parameter whose name starts with none of the
    three prefixes, that is, every parameter visited before it is
    assigned a layer below [totalLayers - n]. *)
Theorem freeze_transformer_unrecognized (n : Z) m :
  (freeze_transformer n m).2 = Raise unrecognized <->
  n <> 0
  /\ exists (i : nat) p,
       base_model m !! i = Some p
       /\ recognized (name p) = false
       /\ forall (j : nat) q, (j < i)%nat -> base_model m !! j = Some q ->
            exists l, layer_of_name (name q) = Return l /\ l < num_hidden_layers m - n.
Proof.
  destruct (decide (n = 0)) as [-> | Hn].
  - rewrite freeze_transformer_zero. cbn [snd]. split; [discriminate | tauto].
  - rewrite (freeze_transformer_nonzero n m Hn). cbn [snd].
    rewrite freeze_loop_raise. split.
    + intros (i & p & Hi & Hp & Hall). split; [exact Hn |].
      exists i, p. split; [exact Hi |]. split.
      * apply layer_of_name_unrecognized, Hp.
      * apply forallb_take_spec, Hall.
    + intros (_ & i & p & Hi & Hp & Hall). exists i, p.
      split; [exact Hi |]. split.
      * apply layer_of_name_unrecognized, Hp.
      * apply forallb_take_spec, Hall.
Qed.

(** C7, amended, on a DistilBERT encoder with [n = 1]: the embeddings
    are below the threshold, the next name is not recognized. *)
Lemma freeze_transformer_unrecognized_witness :
  (freeze_transformer 1 Samples.distilbert).2 = Raise unrecognized.
Proof.
  apply (proj2 (freeze_transformer_unrecognized 1 Samples.distilbert)).
  split; [discriminate |].
  exists 1%nat, {| name := "transformer.layer.0.attention.q_lin.weight";
                  requires_grad := true |}.
  split; [reflexivity |]. split; [reflexivity |].
  intros [| j] q Hj Hq; [| lia].
  injection Hq as <-. exists 0. split; [reflexivity | reflexivity].
Defined.

End FreezeFacts.

(** ** Setup, forward and the checkpoint hooks *)

Section ModuleFacts.
Import HuggingFaceLightningModule.

Implicit Types (self : HuggingFaceLightningModule.t) (tr : Trainer) (dm : DataModule).

(** [setup] for the fit stage, on a module attached to a trainer that
    has a data module: the target names are taken over, the total steps
    are computed when a scheduler is asked for, the metrics are
    initialized. *)
Lemma setup_fit stage self tr dm :
  fit_or_none stage = true ->
  trainer self = Some tr ->
  datamodule tr = Some dm ->
  setup stage self =
    let named := set_target_names (dm_target_names dm) self in
    if hp_use_scheduler (hparams self) then
      if negb (truthy_opt_int (max_epochs tr))
      then (named, Raise (ValueError "Unable to retrieve max_epochs from trainer."))
      else
        match compute_total_steps (Z.of_nat (dataset_len dm))
                (hp_train_batch_size (hparams self)) (num_devices tr)
                (accumulate_grad_batches tr) (default 0 (max_epochs tr)) with
        | Return steps => (_init_metrics (set_total_steps steps named), Return tt)
        | Raise e => (named, Raise e)
        end
    else (_init_metrics named, Return tt).
Proof.
  intros Hfit Htr Hdm. unfold setup. rewrite Hfit.
  unfold mbind, method_bind, get, assert, self_trainer. rewrite Htr. cbn.
  rewrite Hdm. unfold modify, raise, lift. cbn.
  destruct (hp_use_scheduler (hparams self)); [| reflexivity].
  destruct (negb (truthy_opt_int (max_epochs tr))); [reflexivity |].
  destruct (compute_total_steps _ _ _ _ _); reflexivity.
Qed.


(** With [max_epochs = -1] (no limit on the epochs) the product is
    negative and [int] rounds toward zero, not down. *)
Example setup_total_steps_negative_epochs :
  total_steps (setup (Some "fit") (Samples.module_with 1000 8 1 2 (Some (-1)))).1 = Some (-62)
  /\ total_steps_spec 1000 8 1 2 (-1) = -63.
Proof. split; vm_compute; reflexivity. Qed.

(** In the configuration of the scenario (batch size 8, one device,
    accumulation 2, 3 epochs) the assigned value is the floor of the
    exact formula for every dataset size below 2048. *)
Lemma compute_total_steps_scenario_sizes :
  forallb (fun n : nat =>
             match compute_total_steps (Z.of_nat n) 8 1 2 3 with
             | Return steps => steps =? total_steps_spec (Z.of_nat n) 8 1 2 3
             | Raise _ => false
             end)
          (seq 0 2048) = true.
Proof. vm_compute. reflexivity. Qed.



(** A key is among the keys of a chain exactly when looking it up
    succeeds. *)
Lemma ChainMap_keys_getitem (maps : list (gmap string value)) (k : string) :
  k ∈ ChainMap_keys maps <-> exists v, ChainMap_getitem maps k = Return v.
Proof.
  induction maps as [| m rest IH]; simpl.
  - split; [intros H; apply not_elem_of_empty in H; contradiction
           | intros (v & Hv); discriminate].
  - rewrite elem_of_union, elem_of_dom, IH.
    destruct (m !! k) as [v |] eqn:Hm.
    + split; [intros _; exists v; reflexivity | intros _; left; eauto].
    + split.
      * intros [[v Hv] | H]; [discriminate | exact H].
      * intros H. right. exact H.
Qed.

(** Looking a key up in a chain gives the value of the first map that
    has the key. *)
Lemma ChainMap_getitem_first (maps : list (gmap string value)) (k : string) (v : value) :
  ChainMap_getitem maps k = Return v <->
  exists (i : nat) mi, maps !! i = Some mi /\ mi !! k = Some v
     /\ forall (j : nat) mj, (j < i)%nat -> maps !! j = Some mj -> mj !! k = None.
Proof.
  induction maps as [| m rest IH]; simpl.
  - split; [discriminate | intros (i & mi & Hi & _); discriminate].
  - destruct (m !! k) as [v0 |] eqn:Hm.
    + split.
      * intros [= ->]. exists 0%nat, m. split; [reflexivity |].
        split; [exact Hm |]. intros j mj Hj. lia.
      * intros ([| i] & mi & Hi & Hv & Hfirst).
        -- injection Hi as <-. congruence.
        -- specialize (Hfirst 0%nat m ltac:(lia) eq_refl). congruence.
    + rewrite IH. split.
      * intros (i & mi & Hi & Hv & Hfirst). exists (S i), mi.
        split; [exact Hi |]. split; [exact Hv |].
        intros [| j] mj Hj Hmj.
        -- injection Hmj as <-. exact Hm.
        -- apply (Hfirst j mj); [lia | exact Hmj].
      * intros ([| i] & mi & Hi & Hv & Hfirst).
        -- injection Hi as <-. congruence.
        -- exists i, mi. split; [exact Hi |]. split; [exact Hv |].
           intros j mj Hj Hmj. apply (Hfirst (S j) mj); [lia | exact Hmj].
Qed.

Lemma dict_fold_lookup (maps : list (gmap string value)) (keys : list string) (k : string) :
  foldr (fun key d =>
           match ChainMap_getitem maps key with
           | Return v => <[key := v]> d
           | Raise _ => d
           end) (∅ : gmap string value) keys !! k
  = if bool_decide (k ∈ keys)
    then match ChainMap_getitem maps k with
         | Return v => Some v
         | Raise _ => None
         end
    else None.
Proof.
  induction keys as [| key rest IH]; simpl.
  - rewrite lookup_empty. reflexivity.
  - destruct (decide (k = key)) as [-> | Hne].
    + rewrite bool_decide_eq_true_2 by apply list_elem_of_here.
      destruct (ChainMap_getitem maps key) as [v | e].
      * apply lookup_insert_eq.
      * rewrite IH. destruct (bool_decide (key ∈ rest)); reflexivity.
    + assert (Hrest : bool_decide (k ∈ key :: rest) = bool_decide (k ∈ rest)).
      { apply bool_decide_ext. rewrite elem_of_cons. tauto. }
      rewrite Hrest, <- IH.
      destruct (ChainMap_getitem maps key) as [v | e]; [| reflexivity].
      apply lookup_insert_ne. congruence.
Qed.

(** [dict(ChainMap(...))] holds, for each key, what the chain answers. *)
Lemma dict_lookup (maps : list (gmap string value)) (k : string) :
  dict maps !! k
  = match ChainMap_getitem maps k with
    | Return v => Some v
    | Raise _ => None
    end.
Proof.
  unfold dict. rewrite dict_fold_lookup.
  case_bool_decide as Hk; [reflexivity |].
  rewrite elem_of_elements, ChainMap_keys_getitem in Hk.
  destruct (ChainMap_getitem maps k) as [v | e]; [| reflexivity].
  exfalso. apply Hk. eauto.
Qed.

(** C4, as stated, fails: when two positional arguments have the key
    [input_ids], the model is called with the value of the first one,
    not with the value of the later one. *)
Lemma forward_later_argument_counterexample :
  forward Samples.echo [ {[ "input_ids" := VInt 1 ]}; {[ "input_ids" := VInt 2 ]} ] ∅
  = Return (VDict {[ "input_ids" := VInt 1 ]}).
Proof.
  assert (Hd : dict (ChainMap [ {[ "input_ids" := VInt 1 ]}; {[ "input_ids" := VInt 2 ]} ])
               = {[ "input_ids" := VInt 1 ]}).
  { apply map_eq. intros k. rewrite dict_lookup. cbn [ChainMap ChainMap_getitem].
    destruct (decide (k = "input_ids")) as [-> | Hne].
    - rewrite !lookup_singleton_eq. reflexivity.
    - rewrite !lookup_singleton_ne by congruence. reflexivity. }
  unfold forward.
  rewrite bool_decide_eq_false_2 by discriminate.
  rewrite (bool_decide_eq_true_2 ((∅ : gmap string value) = ∅)) by reflexivity.
  cbn [negb andb orb]. rewrite Hd. reflexivity.
Qed.

(** C4, amended. Called with positional arguments only, [forward] merges
    them into one mapping and calls the model once with it; the mapping
    has exactly the keys of the arguments, and a key present in more
    than one argument keeps the value of the earliest argument that has
    it. *)
Theorem forward_merges_first_wins (call_model : gmap string value -> result value)
    (args : list (gmap string value)) :
  args <> [] ->
  forward call_model args ∅ = call_model (dict (ChainMap args))
  /\ (forall (k : string) (v : value),
        dict (ChainMap args) !! k = Some v <->
        exists (i : nat) mi, args !! i = Some mi /\ mi !! k = Some v
           /\ forall (j : nat) mj, (j < i)%nat -> args !! j = Some mj -> mj !! k = None)
  /\ (forall k : string,
        dict (ChainMap args) !! k = None <-> forall mi, mi ∈ args -> mi !! k = None).
Proof.
  intros Hargs.
  assert (Hchain : ChainMap args = args) by (destruct args; [contradiction | reflexivity]).
  rewrite Hchain.
  assert (Hsome : forall (k : string) (v : value),
             dict args !! k = Some v <-> ChainMap_getitem args k = Return v).
  { intros k v. rewrite dict_lookup.
    destruct (ChainMap_getitem args k) as [v0 | e]; split; congruence. }
  split; [| split].
  - unfold forward. rewrite Hchain.
    rewrite (bool_decide_eq_false_2 (args = [])) by exact Hargs.
    rewrite (bool_decide_eq_true_2 ((∅ : gmap string value) = ∅)) by reflexivity.
    reflexivity.
  - intros k v. rewrite Hsome. apply ChainMap_getitem_first.
  - intros k. split.
    + intros Hnone mi Hmi.
      destruct (mi !! k) as [v |] eqn:Hv; [| reflexivity]. exfalso.
      assert (Hin : k ∈ ChainMap_keys args).
      { clear -Hmi Hv. induction args as [| m rest IH]; [inversion Hmi |].
        simpl. apply elem_of_union. apply elem_of_cons in Hmi as [-> | Hmi].
        - left. apply elem_of_dom. eauto.
        - right. apply IH. exact Hmi. }
      apply ChainMap_keys_getitem in Hin as (v' & Hv').
      apply Hsome in Hv'. congruence.
    + intros Hnone. destruct (dict args !! k) as [v |] eqn:Hd; [| reflexivity].
      exfalso. apply Hsome, ChainMap_getitem_first in Hd as (i & mi & Hi & Hv & _).
      assert (mi !! k = None) by (apply Hnone; apply list_elem_of_lookup; eauto).
      congruence.
Qed.

(** C4, amended, on two batches that both hold [input_ids]. *)
Lemma forward_merges_first_wins_witness :
  dict (ChainMap [ {[ "input_ids" := VInt 1 ]};
                   {[ "input_ids" := VInt 2; "labels" := VInt 0 ]} ]) !! "input_ids"
  = Some (VInt 1).
Proof.
  apply (proj1 (proj2 (forward_merges_first_wins Samples.echo
           [ {[ "input_ids" := VInt 1 ]}; {[ "input_ids" := VInt 2; "labels" := VInt 0 ]} ]
           ltac:(discriminate))) "input_ids" (VInt 1)).
  exists 0%nat, {[ "input_ids" := VInt 1 ]}.
  split; [reflexivity |]. split; [apply lookup_singleton_eq |].
  intros j mj Hj. lia.
Defined.

(** The hooks of the checkpoint, on a module attached to a trainer that
    has a data module. *)
Lemma on_save_checkpoint_attached self tr dm (checkpoint : gmap string value) :
  trainer self = Some tr -> datamodule tr = Some dm ->
  on_save_checkpoint self checkpoint
  = (<["target_names" := dm_target_names dm]> checkpoint, Return tt).
Proof.
  intros Htr Hdm. unfold on_save_checkpoint, mbind, method_bind, assert, self_trainer.
  rewrite Htr. cbn. rewrite Hdm. reflexivity.
Qed.

Lemma on_load_checkpoint_present (checkpoint : gmap string value) (v : value) self :
  checkpoint !! "target_names" = Some v ->
  on_load_checkpoint checkpoint self = (set_target_names v self, Return tt).
Proof. intros Hv. unfold on_load_checkpoint. rewrite Hv. reflexivity. Qed.

(** C9. For every ordered list of label names held by the data module
    of the saving module, the save hook succeeds on any checkpoint, the
    load hook succeeds on the saved checkpoint for any other instance,
    and that instance then holds the same list, in the same order; the
    rest of the loading instance is untouched. After [setup] for the fit
    stage the saving module itself holds that list. *)
Theorem checkpoint_round_trip (names : list string) self tr dm
    (checkpoint : gmap string value) (other : HuggingFaceLightningModule.t) :
  trainer self = Some tr ->
  datamodule tr = Some dm ->
  dm_target_names dm = VList (VStr <$> names) ->
  (on_save_checkpoint self checkpoint).2 = Return tt
  /\ (on_load_checkpoint (on_save_checkpoint self checkpoint).1 other).2 = Return tt
  /\ target_names (on_load_checkpoint (on_save_checkpoint self checkpoint).1 other).1
     = VList (VStr <$> names)
  /\ (on_load_checkpoint (on_save_checkpoint self checkpoint).1 other).1
     = set_target_names (VList (VStr <$> names)) other
  /\ (forall stage, fit_or_none stage = true ->
        target_names (setup stage self).1 = VList (VStr <$> names)).
Proof.
  intros Htr Hdm Hnames.
  rewrite (on_save_checkpoint_attached self tr dm checkpoint Htr Hdm). cbn [fst snd].
  rewrite (on_load_checkpoint_present _ (dm_target_names dm) other)
    by apply lookup_insert_eq.
  cbn [fst snd]. rewrite Hnames.
  repeat split.
  intros stage Hfit. rewrite (setup_fit stage self tr dm Hfit Htr Hdm). cbv zeta.
  rewrite Hnames.
  destruct (hp_use_scheduler (hparams self)); [| reflexivity].
  destruct (negb (truthy_opt_int (max_epochs tr))); [reflexivity |].
  destruct (compute_total_steps _ _ _ _ _); reflexivity.
Qed.

(** C9, for the labels [negative; positive], saved into an empty
    checkpoint and loaded by a fresh module. *)
Lemma checkpoint_round_trip_witness :
  target_names
    (on_load_checkpoint
       (on_save_checkpoint (Samples.module_with 1000 8 1 2 (Some 3)) ∅).1
       Samples.fresh).1
  = VList [VStr "negative"; VStr "positive"].
Proof.
  exact (proj1 (proj2 (proj2 (checkpoint_round_trip ["negative"; "positive"]
           (Samples.module_with 1000 8 1 2 (Some 3)) _ _ ∅ Samples.fresh
           eq_refl eq_refl eq_refl)))).
Defined.

End ModuleFacts.

(** ** The layer assigned to a name *)

Section LayerFacts.
Import HuggingFaceLightningModule.

Lemma layer_of_name_embeddings (nm : string) :
  startswith nm "embeddings" = true -> layer_of_name nm = Return 0.
Proof. unfold layer_of_name. intros ->. reflexivity. Qed.

Lemma layer_of_name_pooler (nm : string) :
  startswith nm "pooler" = true -> layer_of_name nm = Return maxsize.
Proof.
  unfold layer_of_name, startswith. destruct nm as [| c rest]; [discriminate |].
  cbn [String.prefix]. destruct (ascii_dec "p" c) as [<- | Hc]; [| discriminate].
  intros ->. reflexivity.
Qed.

(** The index of an encoder layer is read from the third segment of the
    name. *)
Example layer_of_name_encoder :
  layer_of_name "encoder.layer.11.output.dense.weight" = Return 11.
Proof. reflexivity. Qed.

Example layer_of_name_encoder_norm :
  is_return (layer_of_name "encoder.LayerNorm.weight") = false.
Proof. reflexivity. Qed.

End LayerFacts.

(** ** The string identity of the metric adapter *)

Section MetricStrFacts.
Import HuggingFaceMetric.

Lemma append_nil (x : string) : EmptyString +:+ x = x.
Proof. reflexivity. Qed.

Lemma append_cons (c : ascii) (s x : string) : String c s +:+ x = String c (s +:+ x).
Proof. reflexivity. Qed.

Lemma append_empty_r (s : string) : s +:+ EmptyString = s.
Proof.
  induction s as [| c s IH]; [reflexivity |].
  rewrite append_cons. f_equal. exact IH.
Qed.

Lemma append_eq_self (s x : string) : s +:+ x = s -> x = EmptyString.
Proof.
  induction s as [| c s IH]; [intros H; exact H |].
  rewrite append_cons. intros [= H]. apply IH, H.
Qed.

Lemma prefix_append (s x : string) : String.prefix s (s +:+ x) = true.
Proof.
  induction s as [| c s IH].
  - rewrite append_nil. destruct x; reflexivity.
  - rewrite append_cons. cbn [String.prefix].
    destruct (ascii_dec c c) as [_ | Hne]; [exact IH | contradiction].
Qed.

Lemma prefix_refl (s : string) : String.prefix s s = true.
Proof. rewrite <- (append_empty_r s) at 2. apply prefix_append. Qed.

Lemma eqb_empty (s : string) : String.eqb s EmptyString = true <-> s = EmptyString.
Proof. apply String.eqb_eq. Qed.

Lemma join_first_nonempty (sep piece : string) (rest : list string) :
  piece <> EmptyString -> join sep (piece :: rest) <> EmptyString.
Proof.
  intros Hp. destruct rest as [| q rest]; cbn [join]; [exact Hp |].
  destruct piece as [| c piece]; [contradiction |].
  rewrite append_cons. discriminate.
Qed.

Lemma items_of_empty (d : gmap string value) (items : list (string * value)) :
  items_of d items -> (items = [] <-> d = ∅).
Proof.
  intros [_ <-]. split.
  - intros ->. reflexivity.
  - destruct items as [| [k v] rest]; [reflexivity |]. simpl. intros H.
    exfalso. apply (insert_non_empty _ _ _ H).
Qed.

(** X1. The string of an adapter starts with the string of the base
    class; it is that string exactly when there are no fixed compute
    options, and otherwise the base string, two underscores and the
    options as [key_value] pieces joined by two underscores. *)
Theorem metric_str_identity (base : string) (format : value -> string)
    (d : gmap string value) (items : list (string * value)) :
  items_of d items ->
  String.prefix base (__str__ base format items) = true
  /\ (__str__ base format items = base <-> d = ∅)
  /\ (d <> ∅ ->
      __str__ base format items
      = base +:+ "__"
        +:+ join "__" ((fun item : string * value => item.1 +:+ "_" +:+ format item.2)
                       <$> items)).
Proof.
  intros Hitems. pose proof (items_of_empty d items Hitems) as Hempty.
  unfold __str__. cbv zeta.
  destruct items as [| [k v] rest].
  - assert (d = ∅) as -> by (apply Hempty; reflexivity).
    cbn. split; [apply prefix_refl |]. split; [tauto | contradiction].
  - assert (Hd : d <> ∅) by (intros H; apply Hempty in H; discriminate).
    set (pieces := (fun item : string * value => item.1 +:+ "_" +:+ format item.2)
                   <$> (k, v) :: rest).
    assert (Hjoin : join "__" pieces <> EmptyString).
    { unfold pieces. rewrite fmap_cons. apply join_first_nonempty.
      cbn [fst snd]. destruct k; [rewrite append_nil | rewrite append_cons]; discriminate. }
    assert (Heqb : String.eqb (join "__" pieces) EmptyString = false).
    { apply String.eqb_neq. exact Hjoin. }
    rewrite Heqb. cbn [negb].
    split; [apply prefix_append |]. split; [| reflexivity].
    split; [| contradiction].
    intros H. apply append_eq_self in H. discriminate.
Qed.

(** X1, for the fixed option [average = "macro"] of an F1 metric. *)
Lemma metric_str_identity_witness :
  __str__ "f1" Samples.format_str [("average", VStr "macro")] = "f1__average_macro".
Proof.
  refine (proj2 (proj2 (metric_str_identity "f1" Samples.format_str
            {[ "average" := VStr "macro" ]} [("average", VStr "macro")] _)) _).
  - split; [repeat constructor; set_solver |].
    simpl. apply insert_empty.
  - apply insert_non_empty.
Defined.

(** X2. When the wrapped metric returns something that is not a mapping
    (for instance [None]), the assertion of [compute] fails: an
    [AssertionError] leaves [compute], after the single call of the
    wrapped metric; it is not turned into the sentinel. *)
Theorem compute_not_a_mapping (self : HuggingFaceMetric.t) (y_true y_pred : value)
    (kwargs args : gmap string value) (v : value) :
  call_arguments self y_true y_pred kwargs = Return args ->
  em_compute (metric self) args = Return v ->
  (forall d, v <> VDict d) ->
  compute self y_true y_pred kwargs = (Raise (AssertionError ""), [args]).
Proof.
  intros Hcall Hv Hnd. rewrite (compute_bound _ _ _ _ _ Hcall).
  rewrite Hv, bind_return.
  destruct v; try reflexivity. exfalso. apply (Hnd d). reflexivity.
Qed.

(** X2, at a metric that returns [None]. *)
Lemma compute_not_a_mapping_witness :
  compute Samples.silent Samples.labels Samples.labels ∅
  = (Raise (AssertionError ""),
     [explicit Samples.labels Samples.labels ∪ compute_kwargs Samples.silent ∪ ∅]).
Proof.
  apply (compute_not_a_mapping Samples.silent Samples.labels Samples.labels ∅ _ VNone).
  - apply call_arguments_separate; apply map_disjoint_empty_r.
  - reflexivity.
  - discriminate.
Defined.

End MetricStrFacts.

(** ** Metrics, optimizers and prediction of the base module *)

Section BaseModuleFacts.
Import LightningModule HuggingFaceLightningModule.

Implicit Types (self : HuggingFaceLightningModule.t).


(** X4. [get_default_metrics] returns a collection only for two classes
    or more; every metric of the collection is built for the configured
    number of classes, and the collection has eleven metrics for two
    classes and seven for more. *)
Theorem get_default_metrics_num_classes (n : Z) (c : MetricCollection) :
  get_default_metrics_run n = Return c ->
  2 <= n
  /\ (forall name m, metrics_of c !! name = Some m -> num_classes m = n)
  /\ size (metrics_of c) = (if n =? 2 then 11%nat else 7%nat).
Proof.
  intros Hrun.
  assert (Hn : 2 <= n).
  { destruct (Z.lt_ge_cases n 2) as [Hlt | Hge]; [| exact Hge].
    rewrite (get_default_metrics_run_rejected n Hlt) in Hrun. discriminate. }
  split; [exact Hn |].
  rewrite (get_default_metrics_run_accepted n Hn) in Hrun. injection Hrun as <-.
  destruct (n =? 2) eqn:H2.
  - apply Z.eqb_eq in H2. rewrite (get_default_metrics_few n) by lia. split.
    + intros name m Hm. apply elem_of_list_to_map_2 in Hm.
      assert (Hall : Forall (fun entry : string * Metric => num_classes entry.2 = n)
                       (multiclass_variants n ++ binary_variants n)%list)
        by (repeat constructor).
      rewrite Forall_forall in Hall. apply (Hall (name, m) Hm).
    + vm_compute. reflexivity.
  - apply Z.eqb_neq in H2. rewrite (get_default_metrics_many n) by lia. split.
    + intros name m Hm. apply elem_of_list_to_map_2 in Hm.
      assert (Hall : Forall (fun entry : string * Metric => num_classes entry.2 = n)
                       (multiclass_variants n)) by (repeat constructor).
      rewrite Forall_forall in Hall. apply (Hall (name, m) Hm).
    + vm_compute. reflexivity.
Qed.

(** X4, at three classes: seven metrics. *)
Lemma get_default_metrics_num_classes_witness :
  size (metrics_of (get_default_metrics 3)) = 7%nat.
Proof.
  refine (proj2 (proj2 (get_default_metrics_num_classes 3 (get_default_metrics 3) _))).
  vm_compute. reflexivity.
Defined.

(** [sub in s] holds exactly when [s] is some text, [sub], some text. *)
Lemma prefix_spec (sub s : string) :
  String.prefix sub s = true <-> exists post, s = sub +:+ post.
Proof.
  revert s. induction sub as [| c sub IH]; intros s.
  - split; [intros _; exists s; reflexivity | intros _; destruct s; reflexivity].
  - destruct s as [| c' s]; cbn [String.prefix].
    + split; [discriminate | intros (post & H); rewrite append_cons in H; discriminate].
    + destruct (ascii_dec c c') as [<- | Hne].
      * rewrite IH. split; intros (post & H); exists post.
        -- rewrite append_cons. congruence.
        -- rewrite append_cons in H. congruence.
      * split; [discriminate |]. intros (post & H). rewrite append_cons in H. congruence.
Qed.

Lemma contains_spec (s sub : string) :
  contains s sub = true <-> exists pre post, s = pre +:+ sub +:+ post.
Proof.
  induction s as [| c s IH]; cbn [contains]; rewrite orb_true_iff, prefix_spec.
  - split.
    + intros [(post & H) | H]; [| discriminate]. exists EmptyString, post. exact H.
    + intros (pre & post & H). left.
      destruct pre as [| c pre]; [| rewrite append_cons in H; discriminate].
      exists post. exact H.
  - rewrite IH. split.
    + intros [(post & H) | (pre & post & H)].
      * exists EmptyString, post. exact H.
      * exists (String c pre), post. rewrite append_cons. congruence.
    + intros (pre & post & H). destruct pre as [| c' pre].
      * left. exists post. exact H.
      * right. rewrite append_cons in H. injection H as _ H. eauto.
Qed.

Lemma filter_partition_permutation {A : Type} (f : A -> bool) (l : list A) :
  List.filter (fun x => negb (f x)) l ++ List.filter f l ≡ₚ l.
Proof.
  induction l as [| x l IH]; [reflexivity |]. cbn [List.filter].
  destruct (f x); cbn [negb].
  - rewrite <- Permutation_middle. constructor. exact IH.
  - cbn. constructor. exact IH.
Qed.

Lemma filter_sublist {A : Type} (f : A -> bool) (l : list A) :
  sublist (List.filter f l) l.
Proof.
  induction l as [| x l IH]; [constructor |]. cbn [List.filter].
  destruct (f x); [apply sublist_skip | apply sublist_cons]; exact IH.
Qed.

(** X5. The two groups handed to the optimizer split the named
    parameters of the module: together they hold every parameter once
    (frozen or not), each in the order of the traversal; a parameter
    whose name contains [bias] or [LayerNorm.weight] is in the second
    group, which has weight decay [0.0], and every other one is in the
    first group, which has the configured weight decay. *)
Theorem optimizer_grouped_parameters_partition {P : Type}
    (named_parameters : list (string * P)) (wd : value) :
  exists decayed undecayed,
    optimizer_grouped_parameters named_parameters wd
    = [ {| params := decayed; weight_decay := wd |};
        {| params := undecayed; weight_decay := VFloat (S754_zero false) |} ]
    /\ decayed ++ undecayed ≡ₚ (snd <$> named_parameters)
    /\ sublist decayed (snd <$> named_parameters)
    /\ sublist undecayed (snd <$> named_parameters)
    /\ (forall (n : string) (p : P), (n, p) ∈ named_parameters ->
         (exists pre post, n = pre +:+ "bias" +:+ post
                           \/ n = pre +:+ "LayerNorm.weight" +:+ post) ->
         p ∈ undecayed)
    /\ (forall (n : string) (p : P), (n, p) ∈ named_parameters ->
         (forall pre post, n <> pre +:+ "bias" +:+ post
                           /\ n <> pre +:+ "LayerNorm.weight" +:+ post) ->
         p ∈ decayed).
Proof.
  eexists _, _. split; [reflexivity |].
  assert (Hany : forall n : string,
             any_no_decay n = true <->
             exists pre post, n = pre +:+ "bias" +:+ post
                              \/ n = pre +:+ "LayerNorm.weight" +:+ post).
  { intros n. unfold any_no_decay, no_decay. cbn [existsb].
    rewrite orb_false_r, orb_true_iff, !contains_spec. split.
    - intros [(pre & post & H) | (pre & post & H)]; exists pre, post; tauto.
    - intros (pre & post & [H | H]); [left | right]; eauto. }
  split; [| split; [| split; [| split]]].
  - rewrite <- fmap_app. apply fmap_Permutation.
    apply (filter_partition_permutation (fun np : string * P => any_no_decay np.1)).
  - apply fmap_sublist, filter_sublist.
  - apply fmap_sublist, filter_sublist.
  - intros n p Hin Hn. apply Hany in Hn.
    apply list_elem_of_fmap. exists (n, p). split; [reflexivity |].
    apply list_elem_of_In, filter_In. split; [apply list_elem_of_In, Hin | exact Hn].
  - intros n p Hin Hn.
    apply list_elem_of_fmap. exists (n, p). split; [reflexivity |].
    apply list_elem_of_In, filter_In. split; [apply list_elem_of_In, Hin |].
    cbn [fst]. destruct (any_no_decay n) eqn:Hd; [| reflexivity].
    exfalso. apply Hany in Hd as (pre & post & [H | H]);
      destruct (Hn pre post) as [H1 H2]; contradiction.
Qed.

(** The optimizer [configure_optimizers] constructs. *)
Lemma configure_optimizers_checked {P : Type} (torch_optim : gmap string OptimizerClass)
    (hp : OptimHParams) (named_parameters : list (string * P)) self (cls : OptimizerClass) :
  torch_optim !! hp_optimizer hp = Some cls ->
  "lr" ∈ signature cls -> "eps" ∈ signature cls ->
  configure_optimizers torch_optim hp named_parameters self
  = (lr_schedulers ← (if hp_use_scheduler (hparams self)
                      then _get_schedulers hp
                             {| opt_class := hp_optimizer hp;
                                opt_groups := optimizer_grouped_parameters named_parameters
                                                (hp_weight_decay hp);
                                opt_lr := hp_learning_rate hp;
                                opt_eps := hp_adam_epsilon hp |} self
                      else Return []);
     Return ([ {| opt_class := hp_optimizer hp;
                  opt_groups := optimizer_grouped_parameters named_parameters
                                  (hp_weight_decay hp);
                  opt_lr := hp_learning_rate hp;
                  opt_eps := hp_adam_epsilon hp |} ], lr_schedulers)).
Proof.
  intros Hcls Hlr Heps. unfold configure_optimizers. rewrite Hcls. cbv zeta.
  rewrite (bool_decide_eq_true_2 _ Hlr), (bool_decide_eq_true_2 _ Heps). reflexivity.
Qed.

(** X6. [configure_optimizers] fails fast on a misconfiguration: an
    optimizer name unknown to [torch.optim] is an [AttributeError], an
    optimizer class without an [lr] or without an [eps] parameter is an
    [AssertionError], and a scheduler asked for before [setup] has
    computed [total_steps] is an [AttributeError]. Otherwise it returns
    exactly one optimizer, and no scheduler exactly when
    [use_scheduler] is off. *)
Theorem configure_optimizers_outcome {P : Type} (torch_optim : gmap string OptimizerClass)
    (hp : OptimHParams) (named_parameters : list (string * P)) self :
  let outcome := configure_optimizers torch_optim hp named_parameters self in
  (torch_optim !! hp_optimizer hp = None ->
     exists e, outcome = Raise e /\ isinstance e "AttributeError" = true)
  /\ (forall cls, torch_optim !! hp_optimizer hp = Some cls ->
        "lr" ∉ signature cls \/ "eps" ∉ signature cls ->
        outcome = Raise (AssertionError ""))
  /\ (forall cls, torch_optim !! hp_optimizer hp = Some cls ->
        "lr" ∈ signature cls -> "eps" ∈ signature cls ->
        hp_use_scheduler (hparams self) = true -> total_steps self = None ->
        exists e, outcome = Raise e /\ isinstance e "AttributeError" = true)
  /\ (forall cls, torch_optim !! hp_optimizer hp = Some cls ->
        "lr" ∈ signature cls -> "eps" ∈ signature cls ->
        hp_use_scheduler (hparams self) = false \/ is_Some (total_steps self) ->
        exists optimizer schedulers,
          outcome = Return ([optimizer], schedulers)
          /\ opt_class optimizer = hp_optimizer hp
          /\ opt_lr optimizer = hp_learning_rate hp
          /\ opt_eps optimizer = hp_adam_epsilon hp
          /\ opt_groups optimizer
             = optimizer_grouped_parameters named_parameters (hp_weight_decay hp)
          /\ (schedulers = [] <-> hp_use_scheduler (hparams self) = false)
          /\ (forall sc, sc ∈ schedulers ->
                interval sc = "step" /\ frequency sc = 1
                /\ sched_optimizer (scheduler sc) = optimizer
                /\ num_warmup_steps (scheduler sc) = hp_warmup_steps hp
                /\ total_steps self = Some (num_training_steps (scheduler sc)))).
Proof.
  cbv zeta. split; [| split; [| split]].
  - intros Hnone. unfold configure_optimizers. rewrite Hnone.
    eexists. split; reflexivity.
  - intros cls Hcls Hmissing. unfold configure_optimizers. rewrite Hcls. cbv zeta.
    destruct (decide ("lr" ∈ signature cls)) as [Hlr | Hlr].
    + rewrite (bool_decide_eq_true_2 _ Hlr). cbn [negb].
      destruct Hmissing as [H | Heps]; [contradiction |].
      rewrite (bool_decide_eq_false_2 _ Heps). reflexivity.
    + rewrite (bool_decide_eq_false_2 _ Hlr). reflexivity.
  - intros cls Hcls Hlr Heps Hsched Hsteps.
    rewrite (configure_optimizers_checked _ _ _ _ cls Hcls Hlr Heps).
    rewrite Hsched. unfold _get_schedulers. rewrite Hsteps.
    eexists. split; reflexivity.
  - intros cls Hcls Hlr Heps Hok.
    rewrite (configure_optimizers_checked _ _ _ _ cls Hcls Hlr Heps).
    destruct (hp_use_scheduler (hparams self)) eqn:Hsched.
    + destruct Hok as [H | [steps Hsteps]]; [discriminate |].
      unfold _get_schedulers. rewrite Hsteps. rewrite bind_return.
      eexists _, _. split; [reflexivity |].
      do 4 (split; [reflexivity |]). split.
      * split; discriminate.
      * intros sc Hsc. apply list_elem_of_singleton in Hsc as ->.
        cbn. repeat split.
    + rewrite bind_return. eexists _, _. split; [reflexivity |].
      do 4 (split; [reflexivity |]). split.
      * split; reflexivity.
      * intros sc Hsc. inversion Hsc.
Qed.

(** X6, for SGD, which has no [eps]. *)
Lemma configure_optimizers_outcome_witness :
  configure_optimizers Samples.torch_optim
    {| hp_optimizer := "SGD"; hp_learning_rate := VNone; hp_adam_epsilon := VNone;
       hp_warmup_steps := VInt 0; hp_weight_decay := VNone |}
    Samples.classifier_parameters Samples.fresh
  = Raise (AssertionError "").
Proof.
  refine (proj1 (proj2 (configure_optimizers_outcome Samples.torch_optim _
            Samples.classifier_parameters Samples.fresh)) _ _ _).
  - reflexivity.
  - right. cbn. set_solver.
Defined.

(** X7. After a [setup] for the fit stage that computed [total_steps],
    [configure_optimizers] succeeds for a valid optimizer class and
    returns one scheduler, stepped once per optimization step, whose
    number of training steps is the value [setup] assigned. *)
Theorem configure_optimizers_after_setup {P : Type}
    (torch_optim : gmap string OptimizerClass) (hp : OptimHParams)
    (named_parameters : list (string * P)) (cls : OptimizerClass)
    stage self (tr : Trainer) (dm : DataModule) (steps : Z) :
  fit_or_none stage = true ->
  trainer self = Some tr ->
  datamodule tr = Some dm ->
  hp_use_scheduler (hparams self) = true ->
  truthy_opt_int (max_epochs tr) = true ->
  compute_total_steps (Z.of_nat (dataset_len dm)) (hp_train_batch_size (hparams self))
    (num_devices tr) (accumulate_grad_batches tr) (default 0 (max_epochs tr))
  = Return steps ->
  torch_optim !! hp_optimizer hp = Some cls ->
  "lr" ∈ signature cls -> "eps" ∈ signature cls ->
  exists optimizer,
    configure_optimizers torch_optim hp named_parameters (setup stage self).1
    = Return ([optimizer],
              [ {| scheduler := {| sched_optimizer := optimizer;
                                   num_warmup_steps := hp_warmup_steps hp;
                                   num_training_steps := steps |};
                   interval := "step"; frequency := 1 |} ])
    /\ opt_groups optimizer
       = optimizer_grouped_parameters named_parameters (hp_weight_decay hp).
Proof.
  intros Hfit Htr Hdm Hsched Hep Hsteps Hcls Hlr Heps.
  rewrite (setup_fit stage self tr dm Hfit Htr Hdm). cbv zeta.
  rewrite Hsched, Hep, Hsteps. cbn [negb fst].
  rewrite (configure_optimizers_checked _ _ _ _ cls Hcls Hlr Heps).
  cbn [_init_metrics set_total_steps set_target_names hparams total_steps].
  rewrite Hsched. unfold _get_schedulers.
  cbn [_init_metrics set_total_steps set_target_names total_steps].
  rewrite bind_return. eexists. split; reflexivity.
Qed.

(** X7, in the scenario of 187 steps, with AdamW. *)
Lemma configure_optimizers_after_setup_witness :
  exists optimizer,
    configure_optimizers Samples.torch_optim Samples.adamw Samples.classifier_parameters
      (setup (Some "fit") (Samples.module_with 1000 8 1 2 (Some 3))).1
    = Return ([optimizer],
              [ {| scheduler := {| sched_optimizer := optimizer;
                                   num_warmup_steps := VInt 100;
                                   num_training_steps := 187 |};
                   interval := "step"; frequency := 1 |} ])
    /\ opt_groups optimizer
       = optimizer_grouped_parameters Samples.classifier_parameters
           (hp_weight_decay Samples.adamw).
Proof.
  refine (configure_optimizers_after_setup Samples.torch_optim Samples.adamw
            Samples.classifier_parameters _ (Some "fit")
            (Samples.module_with 1000 8 1 2 (Some 3)) _ _ 187
            eq_refl eq_refl eq_refl eq_refl eq_refl _ _ _ _).
  - vm_compute. reflexivity.
  - reflexivity.
  - cbn. set_solver.
  - cbn. set_solver.
Defined.

(** X8. [_predict_with_trainer] asks the trainer to predict from the
    last checkpoint; if that succeeds, or fails with anything but a
    [MisconfigurationException], this single call decides the outcome.
    On a [MisconfigurationException] (nothing was fitted) it predicts a
    second time, without a checkpoint, and the outcome is the one of
    that second call, whatever it is. On a module that is attached to no
    trainer, reading [self.trainer] raises [RuntimeError] before any
    call is made. *)
Theorem predict_with_trainer_fallback {A : Type} (predict : option string -> result A) self :
  (trainer self = None ->
     exists e, _predict_with_trainer predict self = (Raise e, [])
               /\ isinstance e "RuntimeError" = true)
  /\ (is_Some (trainer self) ->
      (forall output, predict (Some "last") = Return output ->
         _predict_with_trainer predict self = (Return output, [Some "last"]))
      /\ (forall e, predict (Some "last") = Raise e ->
            isinstance e "MisconfigurationException" = false ->
            _predict_with_trainer predict self = (Raise e, [Some "last"]))
      /\ (forall e, predict (Some "last") = Raise e ->
            isinstance e "MisconfigurationException" = true ->
            _predict_with_trainer predict self = (predict None, [Some "last"; None]))).
Proof.
  unfold _predict_with_trainer, self_trainer. split.
  - intros ->. exists not_attached. split; reflexivity.
  - intros [tr ->]. split; [| split].
    + intros output ->. reflexivity.
    + intros e -> He. unfold handles. cbn [existsb]. rewrite He. reflexivity.
    + intros e -> He. unfold handles. cbn [existsb]. rewrite He. reflexivity.
Qed.

(** X8, on a module that was never fitted: the second call answers. *)
Lemma predict_with_trainer_fallback_witness :
  _predict_with_trainer Samples.predict_unfitted (Samples.module_with 1000 8 1 2 (Some 3))
  = (Return [1; 0; 1], [Some "last"; None]).
Proof.
  refine (proj2 (proj2 (proj2 (predict_with_trainer_fallback Samples.predict_unfitted
            (Samples.module_with 1000 8 1 2 (Some 3))) _)) _ eq_refl eq_refl).
  eexists. reflexivity.
Defined.

End BaseModuleFacts.

(** ** More on [setup] *)

Section SetupFacts.
Import LightningModule HuggingFaceLightningModule.

Implicit Types (self : HuggingFaceLightningModule.t) (tr : Trainer) (dm : DataModule).

Lemma setup_other_stage stage self :
  fit_or_none stage = false -> setup stage self = (self, Return tt).
Proof. intros H. unfold setup. rewrite H. reflexivity. Qed.

Lemma setup_no_trainer stage self :
  fit_or_none stage = true -> trainer self = None ->
  setup stage self = (self, Raise not_attached).
Proof.
  intros Hfit Htr. unfold setup. rewrite Hfit.
  unfold mbind, method_bind, get, assert, self_trainer. rewrite Htr. reflexivity.
Qed.

Lemma setup_no_datamodule stage self tr :
  fit_or_none stage = true -> trainer self = Some tr -> datamodule tr = None ->
  setup stage self
  = (self, Raise (AttributeError "'NoneType' object has no attribute 'target_names'")).
Proof.
  intros Hfit Htr Hdm. unfold setup. rewrite Hfit.
  unfold mbind, method_bind, get, assert, self_trainer. rewrite Htr. cbn.
  rewrite Hdm. reflexivity.
Qed.

(** X9. [setup] never changes the hyperparameters, the trainer or the
    model, whatever the stage and the outcome; for a stage other than
    fit ("test", "predict", ...) it returns normally and leaves the
    whole module as it was, the metric collections included. *)
Theorem setup_frame stage self :
  hparams (setup stage self).1 = hparams self
  /\ trainer (setup stage self).1 = trainer self
  /\ model (setup stage self).1 = model self
  /\ (fit_or_none stage = false -> setup stage self = (self, Return tt)).
Proof.
  destruct (fit_or_none stage) eqn:Hfit.
  - destruct (trainer self) as [tr |] eqn:Htr.
    + destruct (datamodule tr) as [dm |] eqn:Hdm.
      * rewrite (setup_fit stage self tr dm Hfit Htr Hdm). cbv zeta.
        destruct (hp_use_scheduler (hparams self)).
        -- destruct (negb (truthy_opt_int (max_epochs tr))).
           ++ cbn. rewrite Htr. repeat split. discriminate.
           ++ destruct (compute_total_steps _ _ _ _ _); cbn; rewrite Htr;
                repeat split; discriminate.
        -- cbn. rewrite Htr. repeat split. discriminate.
      * rewrite (setup_no_datamodule stage self tr Hfit Htr Hdm). cbn.
        rewrite Htr. repeat split. discriminate.
    + rewrite (setup_no_trainer stage self Hfit Htr). cbn.
      rewrite Htr. repeat split. discriminate.
  - rewrite (setup_other_stage stage self Hfit). cbn. repeat split.
Qed.

(** X10. A [setup] that returned normally can be repeated: running it
    again for the same stage returns normally and leaves the module as
    the first run left it. *)
Theorem setup_idempotent stage self :
  (setup stage self).2 = Return tt ->
  setup stage (setup stage self).1 = ((setup stage self).1, Return tt).
Proof.
  destruct (fit_or_none stage) eqn:Hfit.
  - destruct (trainer self) as [tr |] eqn:Htr.
    + destruct (datamodule tr) as [dm |] eqn:Hdm.
      * rewrite (setup_fit stage self tr dm Hfit Htr Hdm). cbv zeta.
        destruct (hp_use_scheduler (hparams self)) eqn:Hsched.
        -- destruct (negb (truthy_opt_int (max_epochs tr))) eqn:Hep; [discriminate |].
           destruct (compute_total_steps _ _ _ _ _) as [steps | e] eqn:Hsteps;
             [| discriminate].
           intros _. cbn [fst].
           rewrite (setup_fit stage _ tr dm Hfit); [| exact Htr | exact Hdm].
           cbv zeta. cbn [_init_metrics set_total_steps set_target_names hparams].
           rewrite Hsched, Hep, Hsteps. unfold _init_metrics, set_total_steps, set_target_names.
           cbn. destruct (metrics self); reflexivity.
        -- intros _. cbn [fst].
           rewrite (setup_fit stage _ tr dm Hfit); [| exact Htr | exact Hdm].
           cbv zeta. cbn [_init_metrics set_target_names hparams]. rewrite Hsched.
           unfold _init_metrics, set_target_names. cbn.
           destruct (metrics self); reflexivity.
      * rewrite (setup_no_datamodule stage self tr Hfit Htr Hdm). discriminate.
    + rewrite (setup_no_trainer stage self Hfit Htr). discriminate.
  - rewrite (setup_other_stage stage self Hfit). intros _. cbn [fst].
    apply setup_other_stage, Hfit.
Qed.

(** X10, in the scenario of 187 steps. *)
Lemma setup_idempotent_witness :
  setup (Some "fit") (setup (Some "fit") (Samples.module_with 1000 8 1 2 (Some 3))).1
  = ((setup (Some "fit") (Samples.module_with 1000 8 1 2 (Some 3))).1, Return tt).
Proof.
  apply (setup_idempotent (Some "fit") (Samples.module_with 1000 8 1 2 (Some 3))).
  vm_compute. reflexivity.
Defined.

(** X11. When a scheduler is requested and the trainer's [max_epochs]
    is [None] or 0, [setup] for the fit stage raises a [ValueError]; at
    that point the target names have been taken over from the data
    module, [total_steps] has not been assigned and the metric
    collections have not been initialized. *)
Theorem setup_max_epochs_unknown stage self tr dm :
  fit_or_none stage = true ->
  trainer self = Some tr ->
  datamodule tr = Some dm ->
  hp_use_scheduler (hparams self) = true ->
  max_epochs tr = None \/ max_epochs tr = Some 0 ->
  setup stage self
  = (set_target_names (dm_target_names dm) self,
     Raise (ValueError "Unable to retrieve max_epochs from trainer."))
  /\ total_steps (setup stage self).1 = total_steps self
  /\ metrics (setup stage self).1 = metrics self
  /\ train_metrics (setup stage self).1 = train_metrics self
  /\ val_metrics (setup stage self).1 = val_metrics self
  /\ test_metrics (setup stage self).1 = test_metrics self.
Proof.
  intros Hfit Htr Hdm Hsched Hep.
  rewrite (setup_fit stage self tr dm Hfit Htr Hdm). cbv zeta. rewrite Hsched.
  assert (truthy_opt_int (max_epochs tr) = false) as ->
    by (destruct Hep as [-> | ->]; reflexivity).
  cbn. repeat split.
Qed.

(** X11, for a trainer without [max_epochs]. *)
Lemma setup_max_epochs_unknown_witness :
  (setup None (Samples.module_with 1000 8 1 2 None)).2
  = Raise (ValueError "Unable to retrieve max_epochs from trainer.").
Proof.
  rewrite (proj1 (setup_max_epochs_unknown None (Samples.module_with 1000 8 1 2 None)
                    _ _ eq_refl eq_refl eq_refl eq_refl (or_introl eq_refl))).
  reflexivity.
Defined.

(** X12. When a scheduler is requested, [max_epochs] is known and the
    effective batch size [train_batch_size * max(1, num_devices) *
    accumulate_grad_batches] is 0, [setup] for the fit stage raises a
    [ZeroDivisionError] and assigns neither [total_steps] nor the metric
    collections. *)
Theorem setup_zero_batch stage self tr dm :
  fit_or_none stage = true ->
  trainer self = Some tr ->
  datamodule tr = Some dm ->
  hp_use_scheduler (hparams self) = true ->
  truthy_opt_int (max_epochs tr) = true ->
  hp_train_batch_size (hparams self) * Z.max 1 (num_devices tr)
    * accumulate_grad_batches tr = 0 ->
  setup stage self
  = (set_target_names (dm_target_names dm) self,
     Raise (ZeroDivisionError "division by zero"))
  /\ total_steps (setup stage self).1 = total_steps self
  /\ train_metrics (setup stage self).1 = train_metrics self.
Proof.
  intros Hfit Htr Hdm Hsched Hep Hzero.
  rewrite (setup_fit stage self tr dm Hfit Htr Hdm). cbv zeta.
  rewrite Hsched, Hep. cbn [negb].
  unfold compute_total_steps. cbv zeta. rewrite Hzero.
  unfold int_truediv. cbn. repeat split.
Qed.

(** X12, for [accumulate_grad_batches = 0]. *)
Lemma setup_zero_batch_witness :
  (setup (Some "fit") (Samples.module_with 1000 8 1 0 (Some 3))).2
  = Raise (ZeroDivisionError "division by zero").
Proof.
  rewrite (proj1 (setup_zero_batch (Some "fit") (Samples.module_with 1000 8 1 0 (Some 3))
                    _ _ eq_refl eq_refl eq_refl eq_refl eq_refl eq_refl)).
  reflexivity.
Defined.

(** X13. Without a scheduler, [setup] for the fit stage does not look at
    [max_epochs], the batch size or the dataset: for every trainer that
    has a data module, and a module that was given its metrics or is
    configured for two classes or more, it returns normally, takes over
    the target names, initializes the metrics (the ones given, or else
    the collection [get_default_metrics] returns) and leaves
    [total_steps] as it was. *)
Theorem setup_without_scheduler stage self tr dm :
  fit_or_none stage = true ->
  trainer self = Some tr ->
  datamodule tr = Some dm ->
  hp_use_scheduler (hparams self) = false ->
  is_Some (metrics self) \/ 2 <= hp_num_classes (hparams self) ->
  setup stage self = (_init_metrics (set_target_names (dm_target_names dm) self), Return tt)
  /\ total_steps (setup stage self).1 = total_steps self
  /\ target_names (setup stage self).1 = dm_target_names dm
  /\ (exists c, metrics (setup stage self).1 = Some c
        /\ match metrics self with
           | Some given => c = given
           | None => get_default_metrics_run (hp_num_classes (hparams self)) = Return c
           end
        /\ train_metrics (setup stage self).1 = Some (clone "train/" c)
        /\ val_metrics (setup stage self).1 = Some (clone "val/" c)
        /\ test_metrics (setup stage self).1 = Some (clone "test/" c)).
Proof.
  intros Hfit Htr Hdm Hsched Hmetrics.
  rewrite (setup_fit stage self tr dm Hfit Htr Hdm). cbv zeta. rewrite Hsched.
  cbn. repeat split.
  destruct (metrics self) as [given |] eqn:Hgiven.
  - exists given. repeat split.
  - exists (get_default_metrics (hp_num_classes (hparams self))). repeat split.
    apply get_default_metrics_run_accepted.
    destruct Hmetrics as [[c Hc] | Hn]; [discriminate | exact Hn].
Qed.

(** X13, for three classes and a trainer whose [max_epochs] is
    unknown. *)
Lemma setup_without_scheduler_witness :
  (setup (Some "fit") Samples.module_without_scheduler).2 = Return tt.
Proof.
  rewrite (proj1 (setup_without_scheduler (Some "fit") Samples.module_without_scheduler
                    _ _ eq_refl eq_refl eq_refl eq_refl
                    (or_intror (proj1 (Z.leb_le 2 3) eq_refl)))).
  reflexivity.
Defined.

End SetupFacts.

(** ** More on freezing *)

Section MoreFreezeFacts.
Import HuggingFaceLightningModule.

Implicit Types (p q : NamedParameter) (ps : list NamedParameter) (m : Model).

(** X14. [freeze_transformer(0)] returns normally on every model, also
    one with names it would not recognize, and afterwards every
    parameter of the base model has its gradient disabled; the names and
    their order are unchanged. *)
Theorem freeze_transformer_zero_freezes_all m :
  (freeze_transformer 0 m).2 = Return tt
  /\ Forall (fun p => requires_grad p = false) (base_model (freeze_transformer 0 m).1)
  /\ name <$> base_model (freeze_transformer 0 m).1 = name <$> base_model m
  /\ num_hidden_layers (freeze_transformer 0 m).1 = num_hidden_layers m.
Proof.
  rewrite freeze_transformer_zero. cbn [fst snd base_model num_hidden_layers].
  split; [reflexivity |]. split; [| split; [| reflexivity]].
  - apply Forall_fmap, Forall_forall. intros p _. reflexivity.
  - rewrite <- list_fmap_compose. apply list_fmap_ext. intros i p _. reflexivity.
Qed.

Lemma freeze_loop_idempotent (T : Z) ps :
  freeze_loop T (freeze_loop T ps).1 = freeze_loop T ps.
Proof.
  induction ps as [| p rest IH]; [reflexivity |]. simpl freeze_loop at 2 3.
  destruct (layer_of_name (name p)) as [l | e] eqn:Hl.
  - destruct (T <=? l) eqn:Hle.
    + cbn [fst]. simpl. rewrite Hl, Hle. reflexivity.
    + destruct (freeze_loop T rest) as [rest' r] eqn:Hrest. cbn [fst] in *.
      simpl. rewrite Hl, Hle, IH. reflexivity.
  - cbn [fst]. simpl. rewrite Hl. reflexivity.
Qed.

(** X15. [freeze_transformer] is idempotent: a second call with the same
    argument has the outcome of the first and leaves the model as the
    first call left it. *)
Theorem freeze_transformer_idempotent (n : Z) m :
  freeze_transformer n (freeze_transformer n m).1 = freeze_transformer n m.
Proof.
  destruct (decide (n = 0)) as [-> | Hn].
  - rewrite !freeze_transformer_zero. cbn [fst base_model num_hidden_layers].
    f_equal. f_equal. rewrite <- list_fmap_compose. apply list_fmap_ext.
    intros i p _. reflexivity.
  - rewrite (freeze_transformer_nonzero n m Hn). cbn [fst].
    rewrite (freeze_transformer_nonzero n _ Hn). cbn [base_model num_hidden_layers].
    rewrite freeze_loop_idempotent. reflexivity.
Qed.

Lemma below_mono (T T' : Z) p : T <= T' -> below T p = true -> below T' p = true.
Proof.
  intros HT. unfold below. destruct (layer_of_name (name p)); [| discriminate].
  rewrite !Z.ltb_lt. lia.
Qed.

Lemma forallb_below_mono (T T' : Z) ps :
  T <= T' -> forallb (below T) ps = true -> forallb (below T') ps = true.
Proof.
  intros HT. rewrite !forallb_forall. intros H p Hp.
  apply (below_mono T T' p HT), H, Hp.
Qed.

(** X16. Asking to fine-tune more layers never freezes more: for
    [0 <= n <= n'], a parameter whose gradient is disabled after
    [freeze_transformer(n')] also has it disabled after
    [freeze_transformer(n)] on the same model. *)
Theorem freeze_transformer_monotone (n n' : Z) m :
  0 <= n -> n <= n' ->
  Forall2 (fun p p' => name p = name p'
                       /\ (requires_grad p' = false -> requires_grad p = false))
          (base_model (freeze_transformer n m).1)
          (base_model (freeze_transformer n' m).1).
Proof.
  intros Hn Hnn'.
  apply Forall2_same_length_lookup. split.
  - destruct (decide (n = 0)) as [-> | Hn0];
      [rewrite freeze_transformer_zero | rewrite (freeze_transformer_nonzero n m Hn0)];
      (destruct (decide (n' = 0)) as [-> | Hn'0];
       [rewrite freeze_transformer_zero | rewrite (freeze_transformer_nonzero n' m Hn'0)]);
      cbn [fst base_model]; rewrite ?length_fmap, ?freeze_loop_length; reflexivity.
  - intros i p p' Hp Hp'.
    destruct (base_model m !! i) as [p0 |] eqn:Hi.
    2: { exfalso. apply lookup_ge_None in Hi.
         pose proof (lookup_lt_Some _ _ _ Hp) as Hlt. revert Hlt.
         destruct (decide (n = 0)) as [-> | Hn0];
           [rewrite freeze_transformer_zero | rewrite (freeze_transformer_nonzero n m Hn0)];
           cbn [fst base_model]; rewrite ?length_fmap, ?freeze_loop_length; lia. }
    destruct (decide (n = 0)) as [-> | Hn0].
    + rewrite freeze_transformer_zero in Hp. cbn [fst base_model] in Hp.
      rewrite list_lookup_fmap, Hi in Hp. injection Hp as <-.
      split; [| reflexivity].
      destruct (decide (n' = 0)) as [-> | Hn'0].
      * rewrite freeze_transformer_zero in Hp'. cbn [fst base_model] in Hp'.
        rewrite list_lookup_fmap, Hi in Hp'. injection Hp' as <-. reflexivity.
      * rewrite (freeze_transformer_lookup n' m i p0 Hn'0 Hi) in Hp'.
        injection Hp' as <-. destruct (forallb _ _); reflexivity.
    + assert (Hn'0 : n' <> 0) by lia.
      rewrite (freeze_transformer_lookup n m i p0 Hn0 Hi) in Hp.
      rewrite (freeze_transformer_lookup n' m i p0 Hn'0 Hi) in Hp'.
      injection Hp as <-. injection Hp' as <-.
      destruct (forallb (below (num_hidden_layers m - n')) _) eqn:Hall'.
      * rewrite (forallb_below_mono (num_hidden_layers m - n') (num_hidden_layers m - n)
                   _ ltac:(lia) Hall').
        split; reflexivity.
      * destruct (forallb (below (num_hidden_layers m - n)) _); split;
          try reflexivity; intros H; try exact H.
Qed.

(** X16, on a two-layer BERT encoder, for [n = 1] and [n' = 2]. *)
Lemma freeze_transformer_monotone_witness :
  Forall2 (fun p p' => name p = name p'
                       /\ (requires_grad p' = false -> requires_grad p = false))
          (base_model (freeze_transformer 1 Samples.bert).1)
          (base_model (freeze_transformer 2 Samples.bert).1).
Proof.
  apply (freeze_transformer_monotone 1 2 Samples.bert); lia.
Defined.

(** X17. When [freeze_transformer] raises, the exception is the one of
    the classification of some parameter; every parameter visited before
    that one has been frozen, and that parameter and all the later ones
    are as they were. *)
Theorem freeze_transformer_raise_partial (n : Z) m (e : exn) :
  (freeze_transformer n m).2 = Raise e ->
  n <> 0
  /\ exists (i : nat) p,
       base_model m !! i = Some p
       /\ layer_of_name (name p) = Raise e
       /\ (forall (j : nat) q, (j < i)%nat -> base_model m !! j = Some q ->
             base_model (freeze_transformer n m).1 !! j = Some (freeze q))
       /\ (forall j : nat, (i <= j)%nat ->
             base_model (freeze_transformer n m).1 !! j = base_model m !! j).
Proof.
  intros Hraise.
  assert (Hn : n <> 0).
  { intros ->. rewrite freeze_transformer_zero in Hraise. discriminate. }
  split; [exact Hn |].
  rewrite (freeze_transformer_nonzero n m Hn) in Hraise. cbn [snd] in Hraise.
  apply freeze_loop_raise in Hraise as (i & p & Hi & Hp & Hall).
  exists i, p. split; [exact Hi |]. split; [exact Hp |]. split.
  - intros j q Hj Hq. rewrite (freeze_transformer_lookup n m j q Hn Hq).
    assert (Hpre : forallb (below (num_hidden_layers m - n)) (take (S j) (base_model m))
                   = true).
    { rewrite forallb_forall in Hall |- *. intros x Hx. apply Hall.
      apply list_elem_of_In in Hx. apply list_elem_of_In.
      apply list_elem_of_lookup in Hx as (k & Hk). apply list_elem_of_lookup. exists k.
      destruct (decide (k < S j)%nat) as [Hlt | Hge].
      - rewrite lookup_take_lt in Hk by exact Hlt. rewrite lookup_take_lt by lia. exact Hk.
      - rewrite lookup_take_ge in Hk by lia. discriminate. }
    rewrite Hpre. reflexivity.
  - intros j Hj. destruct (base_model m !! j) as [q |] eqn:Hq.
    + rewrite (freeze_transformer_lookup n m j q Hn Hq).
      assert (Hpre : forallb (below (num_hidden_layers m - n)) (take (S j) (base_model m))
                     = false).
      { apply not_true_is_false. intros Htrue. rewrite forallb_forall in Htrue.
        assert (Hb : below (num_hidden_layers m - n) p = true).
        { apply Htrue. apply list_elem_of_In, list_elem_of_lookup. exists i.
          rewrite lookup_take_lt by lia. exact Hi. }
        rewrite (below_raise _ p e Hp) in Hb. discriminate. }
      rewrite Hpre. reflexivity.
    + rewrite (freeze_transformer_nonzero n m Hn). cbn [fst base_model].
      apply lookup_ge_None. rewrite freeze_loop_length. apply lookup_ge_None. exact Hq.
Qed.

(** X17, on an ALBERT encoder with [n = 1]: the embeddings are frozen,
    then the name [encoder.embedding_hidden_mapping_in.weight] has no
    layer number and [int] raises. *)
Lemma freeze_transformer_raise_partial_witness :
  exists (i : nat) p,
    base_model Samples.albert !! i = Some p
    /\ layer_of_name (name p) = Raise (ValueError "invalid literal for int() with base 10")
    /\ (forall (j : nat) q, (j < i)%nat -> base_model Samples.albert !! j = Some q ->
          base_model (freeze_transformer 1 Samples.albert).1 !! j = Some (freeze q))
    /\ (forall j : nat, (i <= j)%nat ->
          base_model (freeze_transformer 1 Samples.albert).1 !! j
          = base_model Samples.albert !! j).
Proof.
  exact (proj2 (freeze_transformer_raise_partial 1 Samples.albert
                  (ValueError "invalid literal for int() with base 10") eq_refl)).
Defined.

(** X18. Unless everything is frozen ([n = 0]), a parameter of the
    pooler is never frozen, nor is any parameter visited after it: with
    [totalLayers - n] not above [sys.maxsize], they are all left as they
    were. *)
Theorem freeze_transformer_pooler (n : Z) m (i : nat) p :
  n <> 0 ->
  num_hidden_layers m - n <= maxsize ->
  base_model m !! i = Some p ->
  startswith (name p) "pooler" = true ->
  forall j : nat, (i <= j)%nat ->
    base_model (freeze_transformer n m).1 !! j = base_model m !! j.
Proof.
  intros Hn HT Hi Hpool j Hj.
  destruct (base_model m !! j) as [q |] eqn:Hq.
  - rewrite (freeze_transformer_lookup n m j q Hn Hq).
    assert (Hpre : forallb (below (num_hidden_layers m - n)) (take (S j) (base_model m))
                   = false).
    { apply not_true_is_false. intros Htrue. rewrite forallb_forall in Htrue.
      assert (Hb : below (num_hidden_layers m - n) p = true).
      { apply Htrue. apply list_elem_of_In, list_elem_of_lookup. exists i.
        rewrite lookup_take_lt by lia. exact Hi. }
      rewrite (below_return _ p maxsize (layer_of_name_pooler _ Hpool)) in Hb.
      apply Z.ltb_lt in Hb. lia. }
    rewrite Hpre. reflexivity.
  - rewrite (freeze_transformer_nonzero n m Hn). cbn [fst base_model].
    apply lookup_ge_None. rewrite freeze_loop_length. apply lookup_ge_None. exact Hq.
Qed.

(** X18, on a two-layer BERT encoder with [n = 1]. *)
Lemma freeze_transformer_pooler_witness :
  base_model (freeze_transformer 1 Samples.bert).1 !! 3%nat = base_model Samples.bert !! 3%nat.
Proof.
  refine (freeze_transformer_pooler 1 Samples.bert 3 _ _ _ eq_refl eq_refl 3%nat _).
  - discriminate.
  - vm_compute. discriminate.
  - lia.
Defined.

End MoreFreezeFacts.

(** ** Layer numbers in parameter names *)

Section LayerNumberFacts.
Import HuggingFaceLightningModule.

Lemma digit_char_facts (d : nat) :
  (d < 10)%nat ->
  digit_of (digit_char d) = Some (Z.of_nat d)
  /\ Ascii.eqb (digit_char d) "." = false
  /\ is_space (digit_char d) = false
  /\ Ascii.eqb (digit_char d) "-" = false
  /\ Ascii.eqb (digit_char d) "+" = false.
Proof.
  intros Hd. do 10 (destruct d as [| d]; [repeat split |]). lia.
Qed.

Lemma split_digits (ds : list nat) (rest : string) :
  Forall (fun d => (d < 10)%nat) ds ->
  split "." (digits_string ds +:+ String "." rest) = digits_string ds :: split "." rest.
Proof.
  induction 1 as [| d ds Hd Hds IH].
  - reflexivity.
  - cbn [digits_string]. rewrite append_cons. cbn [split].
    destruct (digit_char_facts d Hd) as (_ & -> & _). rewrite IH. reflexivity.
Qed.

Lemma int_digits_digits (ds : list nat) (acc : Z) :
  Forall (fun d => (d < 10)%nat) ds ->
  int_digits (digits_string ds) acc false
  = Some (foldl (fun acc d => 10 * acc + Z.of_nat d) acc ds).
Proof.
  intros Hds. revert acc. induction Hds as [| d ds Hd Hds IH]; intros acc.
  - reflexivity.
  - cbn [digits_string int_digits foldl].
    destruct (digit_char_facts d Hd) as (-> & _). apply IH.
Qed.

(** A string of decimal digits is read by [int] as the number it
    denotes. *)
Lemma int_of_str_digits (ds : list nat) :
  ds <> [] ->
  Forall (fun d => (d < 10)%nat) ds ->
  int_of_str (digits_string ds) = Return (digits_value ds).
Proof.
  intros Hne Hds. destruct ds as [| d ds]; [contradiction |].
  apply Forall_cons in Hds as [Hd Hds].
  pose proof (int_digits_digits ds (Z.of_nat d) Hds) as Hrest.
  unfold digits_value. cbn [foldl]. rewrite Z.mul_0_r, Z.add_0_l.
  unfold int_of_str. cbn [digits_string].
  do 10 (destruct d as [| d];
         [match goal with
          | |- context [digit_char ?k] =>
              let c := eval vm_compute in (digit_char k) in
              change (digit_char k) with c
          end;
          cbn [lstrip];
          repeat match goal with
                 | |- context [is_space ?c] =>
                     let b := eval vm_compute in (is_space c) in
                     change (is_space c) with b
                 end;
          cbn iota; unfold int_magnitude;
          repeat match goal with
                 | |- context [digit_of ?c] =>
                     let b := eval vm_compute in (digit_of c) in
                     change (digit_of c) with b
                 end;
          cbn iota;
          match type of Hrest with
          | context [Z.of_nat ?k] =>
              let z := eval vm_compute in (Z.of_nat k) in
              change (Z.of_nat k) with z in Hrest;
              change (Z.of_nat k) with z
          end;
          rewrite Hrest; reflexivity |]).
  lia.
Qed.



End LayerNumberFacts.

(** ** The classification of the parameter names *)

Section ClassificationFacts.
Import HuggingFaceLightningModule.

Implicit Types (p : NamedParameter) (m : Model).

Lemma split_dotless (segment rest : string) :
  dotless segment = true ->
  split "." (segment +:+ String "." rest) = segment :: split "." rest.
Proof.
  induction segment as [| c segment IH]; intros Hd.
  - reflexivity.
  - cbn [dotless] in Hd. apply andb_true_iff in Hd as [Hc Hd].
    apply negb_true_iff in Hc.
    rewrite append_cons. cbn [split]. rewrite Hc, (IH Hd). reflexivity.
Qed.

Lemma digits_value_nonneg (ds : list nat) : 0 <= digits_value ds.
Proof.
  unfold digits_value.
  assert (H : forall acc, 0 <= acc ->
            0 <= foldl (fun acc d => 10 * acc + Z.of_nat d) acc ds).
  { induction ds as [| d ds IH]; intros acc Hacc; [exact Hacc |].
    cbn [foldl]. apply IH. lia. }
  apply H. lia.
Qed.

(** The classifier of [freeze_transformer] follows the classification of
    the specification. *)
Lemma layer_spec_sound (nm : string) (l : Z) :
  layer_spec nm l -> layer_of_name nm = Return l.
Proof.
  intros [rest | segment ds rest Hseg Hne Hds _ | rest].
  - apply layer_of_name_embeddings.
    repeat rewrite append_cons. rewrite append_nil.
    unfold startswith. cbn. destruct rest; reflexivity.
  - repeat rewrite append_cons. rewrite !append_nil.
    unfold layer_of_name, startswith. cbn [String.prefix ascii_dec].
    cbn -[split int_of_str digits_string String.append].
    cbn [split]. cbn [Ascii.eqb Bool.eqb].
    rewrite (split_dotless segment _ Hseg).
    rewrite (split_digits ds rest Hds).
    cbn. apply int_of_str_digits; assumption.
  - apply layer_of_name_pooler.
    repeat rewrite append_cons. rewrite append_nil.
    unfold startswith. cbn. destruct rest; reflexivity.
Qed.

Lemma layer_spec_nonneg (nm : string) (l : Z) : layer_spec nm l -> 0 <= l.
Proof.
  intros [rest | segment ds rest _ _ _ _ | rest].
  - lia.
  - apply digits_value_nonneg.
  - unfold maxsize. lia.
Qed.

(** C2. On a base model whose parameter names follow the
    classification (embeddings in layer 0, [encoder.<segment>.<i>...] in
    layer [i], read from the third dot-separated segment, pooler in the
    layer of maximum index), [freeze_transformer(n)] with [n >= 1]
    returns normally, and the parameter at position [i] of the traversal
    has its gradient disabled afterwards exactly when it was disabled
    before or its layer is below [totalLayers - n] and so is the layer
    of every parameter visited before it: the first parameter at or
    above the threshold ends the traversal. In particular, with
    [n = totalLayers] the model is left as it was: no gradient is
    disabled. *)
Theorem freeze_transformer_first_crossing (n : Z) m (layers : list Z) :
  1 <= n ->
  Forall2 (fun p l => layer_spec (name p) l) (base_model m) layers ->
  (freeze_transformer n m).2 = Return tt
  /\ length (base_model (freeze_transformer n m).1) = length (base_model m)
  /\ (forall (i : nat) p (l : Z),
        base_model m !! i = Some p -> layers !! i = Some l ->
        exists p', base_model (freeze_transformer n m).1 !! i = Some p'
          /\ name p' = name p
          /\ (requires_grad p' = false <->
              requires_grad p = false
              \/ (l < num_hidden_layers m - n
                  /\ forall (j : nat) (l' : Z), (j < i)%nat -> layers !! j = Some l' ->
                       l' < num_hidden_layers m - n)))
  /\ (n = num_hidden_layers m -> (freeze_transformer n m).1 = m).
Proof.
  intros Hn Hspec.
  assert (Hlayers : Forall2 (fun p l => layer_of_name (name p) = Return l)
                      (base_model m) layers).
  { eapply Forall2_impl; [exact Hspec |]. intros p l. apply layer_spec_sound. }
  assert (Hpos : Forall (fun l => 0 <= l) layers).
  { apply Forall_forall. intros l Hl. apply list_elem_of_lookup in Hl as (i & Hi).
    destruct (Forall2_lookup_r _ _ _ _ _ Hspec Hi) as (p & _ & Hp).
    exact (layer_spec_nonneg _ _ Hp). }
  destruct (freeze_transformer_crossing n m layers Hn Hlayers) as (Hr & Hlen & Hiff & Hsame).
  split; [exact Hr |]. split; [exact Hlen |]. split; [exact Hiff |].
  intros HnT. exact (Hsame HnT Hpos).
Qed.

(** C2, on a two-layer BERT encoder with [n = 1]: the embeddings and
    layer 0 are frozen, the traversal ends at layer 1, and the pooler,
    which comes after it, keeps its gradient. *)
Lemma freeze_transformer_first_crossing_witness :
  (freeze_transformer 1 Samples.bert).2 = Return tt
  /\ requires_grad <$> base_model (freeze_transformer 1 Samples.bert).1
     = [false; false; true; true].
Proof.
  destruct (freeze_transformer_first_crossing 1 Samples.bert [0; 0; 1; maxsize])
    as (Hr & Hlen & Hiff & _).
  - lia.
  - constructor; [exact (layer_spec_embeddings ".word_embeddings.weight") |].
    constructor;
      [exact (layer_spec_encoder "layer" [0%nat] "attention.self.query.weight"
                eq_refl ltac:(discriminate) ltac:(repeat constructor) ltac:(simpl; lia)) |].
    constructor;
      [exact (layer_spec_encoder "layer" [1%nat] "attention.self.query.weight"
                eq_refl ltac:(discriminate) ltac:(repeat constructor) ltac:(simpl; lia)) |].
    constructor; [exact (layer_spec_pooler ".dense.weight") |].
    constructor.
  - split; [exact Hr |].
    destruct (Hiff 0%nat _ _ eq_refl eq_refl) as (p0 & H0 & _ & I0).
    destruct (Hiff 1%nat _ _ eq_refl eq_refl) as (p1 & H1 & _ & I1).
    destruct (Hiff 2%nat _ _ eq_refl eq_refl) as (p2 & H2 & _ & I2).
    destruct (Hiff 3%nat _ _ eq_refl eq_refl) as (p3 & H3 & _ & I3).
    destruct (base_model (freeze_transformer 1 Samples.bert).1)
      as [| q0 [| q1 [| q2 [| q3 [| q4 rest]]]]]; try discriminate.
    cbn in H0, H1, H2, H3. injection H0 as ->. injection H1 as ->.
    injection H2 as ->. injection H3 as ->.
    cbn [fmap list_fmap]. 
    assert (E0 : requires_grad p0 = false).
    { apply I0. right. split; [reflexivity |]. intros j l' Hj. lia. }
    assert (E1 : requires_grad p1 = false).
    { apply I1. right. split; [reflexivity |]. intros j l' Hj Hl'.
      destruct j as [| j]; [| lia]. injection Hl' as <-. reflexivity. }
    assert (E2 : requires_grad p2 = true).
    { destruct (requires_grad p2); [reflexivity |].
      destruct (proj1 I2 eq_refl) as [H | [H _]]; [discriminate | ].
      cbn in H. lia. }
    assert (E3 : requires_grad p3 = true).
    { destruct (requires_grad p3); [reflexivity |].
      destruct (proj1 I3 eq_refl) as [H | [H _]]; [discriminate | ].
      cbn in H. unfold maxsize in H. lia. }
    rewrite E0, E1, E2, E3. reflexivity.
Defined.

End ClassificationFacts.

(** ** Initialization, forward and the checkpoint hooks, continued *)

Section MoreModuleFacts.
Import HuggingFaceLightningModule.

Implicit Types (self : HuggingFaceLightningModule.t) (m : Model).

(** X20. [_init_model] loads the configuration and assigns it to
    [self.config], loads the model with that configuration, installs it
    (compiled when compilation is asked for) and then freezes according
    to [finetune_last_n_layers]: below 0 nothing is frozen and the call
    returns normally; from 0 on, the model is the one
    [freeze_transformer] leaves and the outcome is its outcome. When the
    configuration cannot be loaded, the exception propagates and the
    module is as it was; when the model cannot be loaded, the exception
    propagates, the configuration has been assigned and the model has
    not been replaced. *)
Theorem init_model_freezes {C : Type} (load_config : result C)
    (load_model : C -> result Model) (compile : option (Model -> Model)) (n : Z)
    (self : Configured C) :
  (forall e, load_config = Raise e ->
     _init_model load_config load_model compile n self = (self, Raise e))
  /\ (forall cfg e, load_config = Return cfg -> load_model cfg = Raise e ->
        _init_model load_config load_model compile n self
        = ({| config := Some cfg; module := module self |}, Raise e))
  /\ (forall cfg loaded, load_config = Return cfg -> load_model cfg = Return loaded ->
      let installed := match compile with Some f => f loaded | None => loaded end in
      (n <= -1 ->
         _init_model load_config load_model compile n self
         = ({| config := Some cfg; module := set_model installed (module self) |},
            Return tt))
      /\ (0 <= n ->
          _init_model load_config load_model compile n self
          = ({| config := Some cfg;
                module := set_model (freeze_transformer n installed).1 (module self) |},
             (freeze_transformer n installed).2))).
Proof.
  split; [| split].
  - intros e ->. reflexivity.
  - intros cfg e -> Hm. unfold _init_model, mbind, method_bind, lift, modify.
    rewrite Hm. reflexivity.
  - intros cfg loaded -> Hm. cbv zeta.
    unfold _init_model, mbind, method_bind, lift, modify, on_module, set_config.
    rewrite Hm. cbn [config module].
    split.
    + intros Hn. assert ((-1 <? n) = false) as -> by (apply Z.ltb_ge; lia).
      destruct compile; reflexivity.
    + intros Hn. assert ((-1 <? n) = true) as -> by (apply Z.ltb_lt; lia).
      unfold on_model. destruct compile as [f |]; cbn;
        destruct (freeze_transformer n _) as [frozen r]; reflexivity.
Qed.

(** X20, for a BERT encoder loaded with [finetune_last_n_layers = -1]:
    the configuration is assigned and every parameter stays trainable. *)
Lemma init_model_freezes_witness :
  _init_model (Return "bert-base-uncased") (fun _ => Return Samples.bert) None (-1)
    {| config := None; module := Samples.fresh |}
  = ({| config := Some "bert-base-uncased";
        module := set_model Samples.bert Samples.fresh |}, Return tt).
Proof.
  refine (proj1 (proj2 (proj2 (init_model_freezes (Return "bert-base-uncased")
                                 (fun _ => Return Samples.bert) None (-1)
                                 {| config := None; module := Samples.fresh |}))
                   "bert-base-uncased" Samples.bert eq_refl eq_refl) _).
  lia.
Defined.

(** X21. [forward] calls the model exactly when it is given positional
    arguments only or keyword arguments only. Keyword arguments reach
    the model unchanged; positional and keyword arguments together, or
    no argument at all, fail the assertion, and the model is not
    called. *)
Theorem forward_keyword_arguments (call_model : gmap string value -> result value)
    (args : list (gmap string value)) (kwargs : gmap string value) :
  (args = [] -> kwargs <> ∅ -> forward call_model args kwargs = call_model kwargs)
  /\ (args <> [] -> kwargs <> ∅ -> forward call_model args kwargs = Raise (AssertionError ""))
  /\ (args = [] -> kwargs = ∅ -> forward call_model args kwargs = Raise (AssertionError "")).
Proof.
  unfold forward. split; [| split].
  - intros -> Hk. rewrite (bool_decide_eq_true_2 ([] = [])) by reflexivity.
    rewrite (bool_decide_eq_false_2 _ Hk). reflexivity.
  - intros Ha Hk. rewrite (bool_decide_eq_false_2 _ Ha), (bool_decide_eq_false_2 _ Hk).
    reflexivity.
  - intros -> ->. rewrite (bool_decide_eq_true_2 ([] = [])) by reflexivity.
    rewrite (bool_decide_eq_true_2 ((∅ : gmap string value) = ∅)) by reflexivity.
    reflexivity.
Qed.

Lemma ChainMap_getitem_union (maps : list (gmap string value)) (k : string) :
  match ChainMap_getitem maps k with
  | Return v => Some v
  | Raise _ => None
  end = (⋃ maps) !! k.
Proof.
  induction maps as [| m rest IH]; cbn [ChainMap_getitem union_list foldr].
  - rewrite lookup_empty. reflexivity.
  - rewrite lookup_union. destruct (m !! k) as [v |] eqn:Hm.
    + destruct ((⋃ rest) !! k); reflexivity.
    + rewrite IH. destruct ((⋃ rest) !! k); reflexivity.
Qed.

(** X22. The mapping [forward] builds from its positional arguments is
    their union in which, for each key, the leftmost argument that has
    the key decides; built from a single argument it is that argument. *)
Theorem dict_ChainMap_union (args : list (gmap string value)) :
  dict (ChainMap args) = ⋃ args
  /\ (forall m : gmap string value, dict (ChainMap [m]) = m)
  /\ dom (dict (ChainMap args)) = ⋃ (dom <$> args).
Proof.
  assert (Hunion : forall maps : list (gmap string value), dict maps = ⋃ maps).
  { intros maps. apply map_eq. intros k. rewrite dict_lookup.
    apply ChainMap_getitem_union. }
  assert (Hchain : ⋃ ChainMap args = ⋃ args).
  { destruct args as [| m rest]; [| reflexivity].
    cbn. apply (right_id_L ∅ (∪)). }
  split; [| split].
  - rewrite Hunion. exact Hchain.
  - intros m. rewrite Hunion. cbn. apply (right_id_L ∅ (∪)).
  - rewrite Hunion, Hchain. clear. induction args as [| m rest IH].
    + cbn. apply dom_empty_L.
    + cbn [union_list foldr fmap list_fmap]. rewrite dom_union_L. f_equal. exact IH.
Qed.

(** X23. The load hook needs the entry [target_names]: on a checkpoint
    without it, it raises a [KeyError] and leaves the module as it was;
    with it, it returns normally and changes nothing but
    [target_names]. *)
Theorem on_load_checkpoint_entry (checkpoint : gmap string value) self :
  (checkpoint !! "target_names" = None ->
     on_load_checkpoint checkpoint self = (self, Raise (KeyError "target_names")))
  /\ (forall v, checkpoint !! "target_names" = Some v ->
        (on_load_checkpoint checkpoint self).2 = Return tt
        /\ target_names (on_load_checkpoint checkpoint self).1 = v
        /\ hparams (on_load_checkpoint checkpoint self).1 = hparams self
        /\ trainer (on_load_checkpoint checkpoint self).1 = trainer self
        /\ model (on_load_checkpoint checkpoint self).1 = model self
        /\ metrics (on_load_checkpoint checkpoint self).1 = metrics self
        /\ train_metrics (on_load_checkpoint checkpoint self).1 = train_metrics self
        /\ val_metrics (on_load_checkpoint checkpoint self).1 = val_metrics self
        /\ test_metrics (on_load_checkpoint checkpoint self).1 = test_metrics self
        /\ total_steps (on_load_checkpoint checkpoint self).1 = total_steps self).
Proof.
  split.
  - intros H. unfold on_load_checkpoint. rewrite H. reflexivity.
  - intros v H. rewrite (on_load_checkpoint_present checkpoint v self H).
    cbn. repeat split.
Qed.

(** X24. The save hook touches one entry of the checkpoint: every other
    entry is kept, a stale [target_names] is overwritten by the list of
    the data module, and saving again changes nothing. On a module that
    is attached to no trainer, reading [self.trainer] raises
    [RuntimeError] and the checkpoint is as it was. *)
Theorem on_save_checkpoint_entries self (checkpoint : gmap string value) :
  (trainer self = None ->
     exists e, on_save_checkpoint self checkpoint = (checkpoint, Raise e)
               /\ isinstance e "RuntimeError" = true)
  /\ (forall tr dm, trainer self = Some tr -> datamodule tr = Some dm ->
        (on_save_checkpoint self checkpoint).2 = Return tt
        /\ (on_save_checkpoint self checkpoint).1 !! "target_names"
           = Some (dm_target_names dm)
        /\ (forall k : string, k <> "target_names" ->
              (on_save_checkpoint self checkpoint).1 !! k = checkpoint !! k)
        /\ on_save_checkpoint self (on_save_checkpoint self checkpoint).1
           = ((on_save_checkpoint self checkpoint).1, Return tt)).
Proof.
  split.
  - intros Htr. exists not_attached. split; [| reflexivity].
    unfold on_save_checkpoint, mbind, method_bind, assert, self_trainer.
    rewrite Htr. reflexivity.
  - intros tr dm Htr Hdm.
    rewrite !(on_save_checkpoint_attached self tr dm _ Htr Hdm). cbn [fst snd].
    split; [reflexivity |]. split; [apply lookup_insert_eq |]. split.
    + intros k Hk. apply lookup_insert_ne. congruence.
    + rewrite insert_insert_eq. reflexivity.
Qed.

End MoreModuleFacts.
